(** * MQTT monitor: message handling, field decoding and derived HVAC status

    A shallow embedding of [scripts/mqtt-monitor.py].  The handler
    [on_message] keeps three module-level variables ([last_message_time],
    [last_data_timestamp], [message_count]), decodes the JSON payload,
    classifies it as new or duplicate data, prints the raw values of one fan
    coil unit and derives its heating / cooling / idle status and the
    setpoint gap.

    Conventions of the embedding.
    - A Python [str] is a list of Unicode code points.
    - A Python [float] is an IEEE 754 binary64 value, as [spec_float] with
      precision 53 and maximal exponent 1024.
    - A [datetime] is a count of microseconds.
    - [print] never raises; each group of [print] calls is one [event].
    - Library calls whose result is not computed here ([json.loads] on the
      decoded bytes, [str] of a float, list or dict) are parameters of the
      section that contains the handler. *)

From Stdlib Require Import ZArith NArith List Bool String Ascii Lia.
From Stdlib Require Import DecimalString.
From Stdlib Require Import Sorted Permutation.
From Stdlib Require Import Floats.SpecFloat.
Import ListNotations.

Set Warnings "-register-all".

(** ** Python strings *)

Module PyStr.

Definition pystr := list N.

(** An ASCII literal as a Python string. *)
Definition lit (s : string) : pystr :=
  List.map N_of_ascii (list_ascii_of_string s).

Fixpoint eqb (s t : pystr) : bool :=
  match s, t with
  | [], [] => true
  | c :: s', d :: t' => N.eqb c d && eqb s' t'
  | _, _ => false
  end.

(** [s.startswith(p)] *)
Fixpoint starts_with (p s : pystr) : bool :=
  match p, s with
  | [], _ => true
  | c :: p', d :: s' => N.eqb c d && starts_with p' s'
  | _ :: _, [] => false
  end.

(** [p in s] for two strings: [p] occurs as a substring of [s]. *)
Fixpoint contains (p s : pystr) : bool :=
  starts_with p s ||
  match s with
  | [] => false
  | _ :: s' => contains p s'
  end.

(** Lexicographic order on code points, the order of [sorted] on strings. *)
Fixpoint leb (s t : pystr) : bool :=
  match s, t with
  | [], _ => true
  | _ :: _, [] => false
  | c :: s', d :: t' =>
      if N.ltb c d then true
      else if N.eqb c d then leb s' t' else false
  end.

(** The code points of general category Nd (Unicode 14.0, the table of
    CPython 3.11): every such character lies in a run of ten consecutive
    code points whose values are 0 to 9; the list gives the zero of each
    run.  The class [\d] of [re] on [str] patterns and the digits accepted
    by [float] are exactly these characters. *)
Definition decimal_zeros : list N :=
  [48; 1632; 1776; 1984; 2406; 2534; 2662; 2790; 2918; 3046; 3174; 3302;
   3430; 3558; 3664; 3792; 3872; 4160; 4240; 6112; 6160; 6470; 6608; 6784;
   6800; 6992; 7088; 7232; 7248; 42528; 43216; 43264; 43472; 43504; 43600;
   44016; 65296; 66720; 68912; 69734; 69872; 69942; 70096; 70384; 70736;
   70864; 71248; 71360; 71472; 71904; 72016; 72784; 73040; 73120; 92768;
   92864; 93008; 120782; 120792; 120802; 120812; 120822; 123200; 123632;
   125264; 130032]%N.

(** The digit value of a decimal character, [None] for any other. *)
Definition decimal_value (c : N) : option N :=
  match List.find (fun z => N.leb z c && N.ltb c (z + 10)) decimal_zeros with
  | Some z => Some (c - z)%N
  | None => None
  end.

Definition is_decimal (c : N) : bool :=
  match decimal_value c with Some _ => true | None => false end.

Definition dot : N := 46.
Definition lbrace : N := 123.
Definition rbrace : N := 125.
Definition space : N := 32.

(** ASCII lower-casing.  [str.lower] also maps non-ASCII characters, but
    none of them to a letter of [supply] or [sat], the only words the
    handler looks for in a lowered string. *)
Definition lower_char (c : N) : N :=
  if N.leb 65 c && N.leb c 90 then (c + 32)%N else c.

Definition lower (s : pystr) : pystr := List.map lower_char s.

End PyStr.

Import PyStr.

(** ** Python floats *)

Module PyFloat.

Definition prec : Z := 53.
Definition emax : Z := 1024.

Definition float := spec_float.

(** The quotient [m / d] of two integers, [0 <= m] and [0 < d], rounded to
    the nearest binary64 value, ties to even, with the sign [neg].  This is
    the value of [float] on a decimal literal and of true division of two
    integers. *)
Definition of_ratio (neg : bool) (m d : Z) : float :=
  match m with
  | Z0 => S754_zero neg
  | _ =>
      let '(q, e, l) := SFdiv_core_binary prec emax m 0 d 0 in
      binary_round_aux prec emax neg q e l
  end.

(** True division of an integer by a positive integer. *)
Definition of_quotient (n d : Z) : float :=
  of_ratio (Z.ltb n 0) (Z.abs n) d.

Definition of_Z (n : Z) : float := of_quotient n 1.

Definition sub : float -> float -> float := SFsub prec emax.
Definition abs : float -> float := SFabs.
Definition ltb : float -> float -> bool := SFltb.
Definition eqb : float -> float -> bool := SFeqb.
Definition leb : float -> float -> bool := SFleb.

(** [bool(x)]: a float is falsy exactly when it is a zero. *)
Definition nonzero (x : float) : bool :=
  match x with
  | S754_zero _ => false
  | _ => true
  end.

(** Exact comparison of an integer with a float, as [int.__eq__] does it. *)
Definition eqb_Z (n : Z) (x : float) : bool :=
  match x with
  | S754_zero _ => Z.eqb n 0
  | S754_finite s m e =>
      let sm := if s then Z.neg m else Z.pos m in
      match e with
      | Zneg p => Z.eqb (n * 2 ^ Z.pos p) sm
      | _ => Z.eqb n (sm * 2 ^ e)
      end
  | _ => false
  end.

(** The literal [0.1]. *)
Definition tenth : float := of_ratio false 1 10.

(** A float that is not below zero: a zero, or a finite or infinite value
    with the positive sign. *)
Definition nonneg (x : float) : Prop :=
  match x with
  | S754_zero _ => True
  | S754_finite s _ _ => s = false
  | S754_infinity s => s = false
  | S754_nan => False
  end.

End PyFloat.

(** ** Python values

    The values [json.loads] builds, which are all the values the handler
    touches: [None], [bool], [int], [float], [str], [list] and [dict]. A
    [dict] is the list of its items in insertion order; [json.loads] keeps
    one item per key. *)

Inductive value : Type :=
| VNone
| VBool (b : bool)
| VInt (z : Z)
| VFloat (f : PyFloat.float)
| VStr (s : pystr)
| VList (l : list value)
| VDict (d : list (pystr * value)).

Module PyValue.

(** [bool(v)], the truth value that [if], [not], [and] and [or] test. *)
Definition truthy (v : value) : bool :=
  match v with
  | VNone => false
  | VBool b => b
  | VInt z => negb (Z.eqb z 0)
  | VFloat f => PyFloat.nonzero f
  | VStr s => match s with [] => false | _ => true end
  | VList l => match l with [] => false | _ => true end
  | VDict d => match d with [] => false | _ => true end
  end.

(** [a or b] *)
Definition py_or (a b : value) : value := if truthy a then a else b.

(** [d.get(k)] on the items of a dict, [None] for a missing key. *)
Fixpoint lookup (d : list (pystr * value)) (k : pystr) : option value :=
  match d with
  | [] => None
  | (k', v) :: d' => if PyStr.eqb k' k then Some v else lookup d' k
  end.

Definition dict_get (d : list (pystr * value)) (k : pystr) : value :=
  match lookup d k with Some v => v | None => VNone end.

(** [d.get(k, default)] *)
Definition dict_get_default (d : list (pystr * value)) (k : pystr)
    (default : value) : value :=
  match lookup d k with Some v => v | None => default end.

(** [k in d] *)
Definition dict_has (d : list (pystr * value)) (k : pystr) : bool :=
  match lookup d k with Some _ => true | None => false end.

(** Numbers compare across [bool], [int] and [float]. *)
Inductive number := NumZ (z : Z) | NumF (f : PyFloat.float).

Definition as_number (v : value) : option number :=
  match v with
  | VBool b => Some (NumZ (if b then 1 else 0))
  | VInt z => Some (NumZ z)
  | VFloat f => Some (NumF f)
  | _ => None
  end.

Definition number_eqb (a b : number) : bool :=
  match a, b with
  | NumZ x, NumZ y => Z.eqb x y
  | NumZ x, NumF g => PyFloat.eqb_Z x g
  | NumF f, NumZ y => PyFloat.eqb_Z y f
  | NumF f, NumF g => PyFloat.eqb f g
  end.

(** [a == b].  Two containers are compared item by item with [==]; the
    shortcut by which CPython takes an item identical to itself as equal
    (it only shows for a NaN shared between two containers) is not
    modelled. *)
Fixpoint py_eq (a b : value) {struct a} : bool :=
  match a, b with
  | VNone, VNone => true
  | VStr s, VStr t => PyStr.eqb s t
  | VList l, VList m =>
      (fix items (l m : list value) {struct l} : bool :=
         match l, m with
         | [], [] => true
         | x :: l', y :: m' => py_eq x y && items l' m'
         | _, _ => false
         end) l m
  | VDict d, VDict e =>
      Nat.eqb (List.length d) (List.length e) &&
      (fix items (d : list (pystr * value)) {struct d} : bool :=
         match d with
         | [] => true
         | (k, v) :: d' =>
             match lookup e k with
             | Some w => py_eq v w
             | None => false
             end && items d'
         end) d
  | _, _ =>
      match as_number a, as_number b with
      | Some x, Some y => number_eqb x y
      | _, _ => false
      end
  end.

(** [a != b] *)
Definition py_ne (a b : value) : bool := negb (py_eq a b).

(** [str(n)] for an integer. *)
Definition str_of_Z (z : Z) : pystr :=
  PyStr.lit (NilZero.string_of_int (Z.to_int z)).

End PyValue.

Import PyValue.

(** ** The three regular expressions of the handler *)

Module Regex.

(** A character of the class [[\d\.]]. *)
Definition token_char (c : N) : bool :=
  PyStr.is_decimal c || N.eqb c PyStr.dot.

(** The longest prefix made of decimal digits and dots: what the greedy
    class [[\d\.]+] consumes at the start of the string. *)
Fixpoint digits_dots (s : pystr) : pystr :=
  match s with
  | c :: s' =>
      if PyStr.is_decimal c || N.eqb c PyStr.dot
      then c :: digits_dots s' else []
  | [] => []
  end.

(** [re.match(r'^([\d\.]+)', s)], group 1 (line 196). *)
Definition match_number (s : pystr) : option pystr :=
  match digits_dots s with
  | [] => None
  | tok => Some tok
  end.

(** [re.match(r'^([\d\.]+|nan)', s)], group 1 (line 146): the second
    alternative is tried only where the first one fails. *)
Definition match_number_or_nan (s : pystr) : option pystr :=
  match digits_dots s with
  | [] =>
      if PyStr.starts_with (PyStr.lit "nan") s
      then Some (PyStr.lit "nan") else None
  | tok => Some tok
  end.

(** The longest prefix without a closing brace, and what follows it. *)
Fixpoint until_rbrace (s : pystr) : pystr * pystr :=
  match s with
  | [] => ([], [])
  | c :: s' =>
      if N.eqb c PyStr.rbrace then ([], s)
      else let '(run, rest) := until_rbrace s' in (c :: run, rest)
  end.

(** [re.search(r'\{([^}]+)\}', s)], group 1 (line 150): the leftmost
    opening brace that is followed by a non-empty run without a closing
    brace and then by a closing brace. *)
Fixpoint search_braced (s : pystr) : option pystr :=
  match s with
  | [] => None
  | c :: s' =>
      if N.eqb c PyStr.lbrace then
        match until_rbrace s' with
        | (c' :: run, _ :: _) => Some (c' :: run)
        | _ => search_braced s'
        end
      else search_braced s'
  end.

End Regex.

(** ** Exceptions *)

Inductive exn := AttributeError | KeyError | TypeError | ValueError.

Inductive result (A : Type) : Type :=
| Ok (a : A)
| Raise (e : exn).

Arguments Ok {A} a.
Arguments Raise {A} e.

(** [float(tok)] for a token of decimal digits and dots: the token is a
    float literal when it has at most one dot and at least one digit. *)
Module FloatLiteral.

(** Digits read so far as an integer, the number of them after the dot,
    and whether a dot and a digit have been seen. *)
Record acc := { mant : Z; frac : nat; seen_dot : bool; seen_digit : bool }.

Definition start : acc :=
  {| mant := 0; frac := 0; seen_dot := false; seen_digit := false |}.

Definition step (a : acc) (c : N) : option acc :=
  match PyStr.decimal_value c with
  | Some v =>
      Some {| mant := (10 * mant a + Z.of_N v)%Z;
              frac := if seen_dot a then S (frac a) else frac a;
              seen_dot := seen_dot a;
              seen_digit := true |}
  | None =>
      if N.eqb c PyStr.dot && negb (seen_dot a)
      then Some {| mant := mant a; frac := frac a;
                   seen_dot := true; seen_digit := seen_digit a |}
      else None
  end.

Fixpoint scan (a : acc) (s : pystr) : option acc :=
  match s with
  | [] => if seen_digit a then Some a else None
  | c :: s' =>
      match step a c with
      | Some a' => scan a' s'
      | None => None
      end
  end.

Definition float_of_token (tok : pystr) : result PyFloat.float :=
  match scan start tok with
  | Some a => Ok (PyFloat.of_ratio false (mant a) (10 ^ Z.of_nat (frac a)))
  | None => Raise ValueError
  end.

End FloatLiteral.

(** ** Output and control flow of the handler

    What the handler prints is kept as a list of events; a computation
    carries the events printed so far and either a value or the exception
    that stopped it. *)

Inductive raw_field :=
| SpaceTemp | EffectiveSetpoint | UserSetpoint | SupplyTemp
| HeatOutput | CoolOutput | FanSpeed | Occupancy.

Inductive event :=
| EvMessage (count : Z) (received_at : Z) (data_timestamp : value)
    (size : nat)                                       (* lines 63-65 *)
| EvTimeSinceLast (seconds : PyFloat.float)            (* line 68 *)
| EvNewData                                            (* line 71 *)
| EvPrevious (previous current : value)                (* lines 73-74 *)
| EvDuplicate                                          (* line 76 *)
| EvFcuCount (fcu_count : nat)                         (* line 81 *)
| EvPayload (payload : value)                          (* lines 84-107 *)
| EvRawValues (the_fcu : value)                        (* line 155 *)
| EvRaw (field : raw_field) (text : pystr)             (* lines 158-175 *)
| EvFields (total : nat) (fields : list (pystr * pystr)) (* lines 178-182 *)
| EvSupplyCandidates (names : list pystr)              (* lines 186-189 *)
| EvHeating (heat_num : value)                         (* line 205 *)
| EvCooling (cool_num : value)                         (* line 207 *)
| EvIdle                                               (* line 209 *)
| EvSetpointGap (gap user_sp eff_sp : PyFloat.float)   (* line 216 *)
| EvSeparator                                          (* line 220 *)
| EvParseFailed                                        (* line 227 *)
| EvError.                                             (* line 229 *)

Module IO.

Definition io (A : Type) : Type := (list event * result A)%type.

Definition ret {A} (a : A) : io A := ([], Ok a).

Definition bind {A B} (m : io A) (k : A -> io B) : io B :=
  match m with
  | (out, Ok a) => let '(out', r) := k a in (out ++ out', r)
  | (out, Raise e) => (out, Raise e)
  end.

Definition print (e : event) : io unit := ([e], Ok tt).

Definition lift {A} (r : result A) : io A := ([], r).

Definition when (b : bool) (m : io unit) : io unit :=
  if b then m else ret tt.

End IO.

Import IO.

Declare Scope io_scope.
Delimit Scope io_scope with io.
Notation "x <- m ;; k" := (bind m (fun x => k))
  (at level 61, m at next level, right associativity) : io_scope.
Notation "m ;; k" := (bind m (fun _ => k))
  (at level 61, right associativity) : io_scope.

(** Operations on values that raise on the wrong type. *)
Module PyOps.

(** [len(v)] *)
Definition py_len (v : value) : result nat :=
  match v with
  | VStr s => Ok (List.length s)
  | VList l => Ok (List.length l)
  | VDict d => Ok (List.length d)
  | _ => Raise TypeError
  end.

(** [k in v] for a string [k] *)
Definition py_in (k : pystr) (v : value) : result bool :=
  match v with
  | VStr s => Ok (PyStr.contains k s)
  | VList l => Ok (List.existsb (fun x => py_eq x (VStr k)) l)
  | VDict d => Ok (dict_has d k)
  | _ => Raise TypeError
  end.

(** [v[k]] for a string [k] *)
Definition py_getitem (v : value) (k : pystr) : result value :=
  match v with
  | VDict d =>
      match lookup d k with
      | Some x => Ok x
      | None => Raise KeyError
      end
  | _ => Raise TypeError
  end.

(** [v > 0] *)
Definition py_gt_zero (v : value) : result bool :=
  match v with
  | VBool b => Ok b
  | VInt z => Ok (Z.ltb 0 z)
  | VFloat f => Ok (PyFloat.ltb (S754_zero false) f)
  | _ => Raise TypeError
  end.

(** [sorted] on a list of strings, by insertion. *)
Fixpoint insert_sorted (k : pystr) (l : list pystr) : list pystr :=
  match l with
  | [] => [k]
  | k' :: l' => if PyStr.leb k k' then k :: l else k' :: insert_sorted k l'
  end.

Definition sorted (l : list pystr) : list pystr :=
  List.fold_right insert_sorted [] l.

End PyOps.

Import PyOps.

(** ** The handler *)

(** The module-level variables of lines 29-31. *)
Record tracking := {
  last_message_time : option Z;
  last_data_timestamp : value;
  message_count : Z
}.

Definition initial : tracking :=
  {| last_message_time := None;
     last_data_timestamp := VNone;
     message_count := 0 |}.

(** The outcome of [json.loads(msg.payload.decode('utf-8'))]: a value, a
    [json.JSONDecodeError], or another exception (a [UnicodeDecodeError] of
    [decode] for bytes that are not UTF-8). *)
Inductive loads_result :=
| Loaded (payload : value)
| JSONDecodeError
| LoadsError.

Definition fcu_key : pystr := PyStr.lit "fCU_01_04".

Section Monitor.

(** [str] of a float, a list or a dict. *)
Variable py_repr : value -> pystr.

(** [json.loads] after [decode]. *)
Variable json_loads : list Byte.byte -> loads_result.

(** [str(v)] *)
Definition py_str (v : value) : pystr :=
  match v with
  | VStr s => s
  | VNone => PyStr.lit "None"
  | VBool true => PyStr.lit "True"
  | VBool false => PyStr.lit "False"
  | VInt z => str_of_Z z
  | _ => py_repr v
  end.

(** Lines 140-153. *)
Definition parse_value (val : value) : pystr :=
  if match val with VNone => true | _ => false end
     || py_eq val (VStr (PyStr.lit "N/A"))
  then PyStr.lit "N/A"
  else
    let val_str := py_str val in
    match Regex.match_number_or_nan val_str with
    | Some num =>
        let status :=
          match Regex.search_braced val_str with
          | Some word => word
          | None => PyStr.lit "ok"
          end in
        num ++ PyStr.lit " {" ++ status ++ PyStr.lit "}"
    | None => val_str
    end.

(** Lines 192-197: a float, or [None]. *)
Definition extractNumericValue (val : value) : result (option PyFloat.float) :=
  if negb (truthy val) then Ok None
  else
    match Regex.match_number (py_str val) with
    | Some tok =>
        match FloatLiteral.float_of_token tok with
        | Ok f => Ok (Some f)
        | Raise e => Raise e
        end
    | None => Ok None
    end.

(** A float or [None] as a value. *)
Definition of_extracted (x : option PyFloat.float) : value :=
  match x with
  | Some f => VFloat f
  | None => VNone
  end.

Section Unit.

(** The items of the dict [the_fcu]. *)
Variable the_fcu : list (pystr * value).

Definition field (name : string) : value := dict_get the_fcu (PyStr.lit name).

(** Lines 164-165, 170 and 174. *)
Definition heat_val : value :=
  py_or (py_or (field "nvoHeatOutput") (field "nvoHeatPrimary"))
        (field "nvoHeatOut").

Definition cool_val : value :=
  py_or (py_or (field "nvoCoolOutput") (field "nvoCoolPrimary"))
        (field "nvoCoolOut").

Definition fan_val : value :=
  py_or (field "nvoFanSpeed") (field "nvoFanSpeed_state").

Definition occup_val : value :=
  py_or (field "nvoOccup") (field "nvoEffectOccup").

(** Lines 158-175: the eight raw values, in the order they are printed. *)
Definition raw_values : list (raw_field * pystr) :=
  [ (SpaceTemp, parse_value (field "nvoSpaceTemp"));
    (EffectiveSetpoint, parse_value (field "nvoEffectSetpt"));
    (UserSetpoint, parse_value (field "nviSetpoint"));
    (SupplyTemp, parse_value (field "nvoSupplyTemp"));
    (HeatOutput, parse_value heat_val);
    (CoolOutput, parse_value cool_val);
    (FanSpeed, parse_value fan_val);
    (Occupancy, parse_value occup_val) ].

(** Lines 178-182: every field, by sorted name, with its parsed value. *)
Definition all_fields : list (pystr * pystr) :=
  List.map
    (fun field_name =>
       (field_name, parse_value (dict_get the_fcu field_name)))
    (sorted (List.map fst the_fcu)).

(** Line 185. *)
Definition supply_temp_candidates : list pystr :=
  List.filter
    (fun k =>
       PyStr.contains (PyStr.lit "supply") (PyStr.lower k)
       || PyStr.contains (PyStr.lit "sat") (PyStr.lower k)
       || PyStr.contains (PyStr.lit "supplyair") (PyStr.lower k))
    (List.map fst the_fcu).

(** Lines 200-201. *)
Definition heat_num : result value :=
  if truthy heat_val then
    match extractNumericValue heat_val with
    | Ok x => Ok (of_extracted x)
    | Raise e => Raise e
    end
  else Ok (VInt 0).

Definition cool_num : result value :=
  if truthy cool_val then
    match extractNumericValue cool_val with
    | Ok x => Ok (of_extracted x)
    | Raise e => Raise e
    end
  else Ok (VInt 0).

End Unit.

(** [num and num > 0], the test of lines 204 and 206. *)
Definition and_positive (num : value) : result bool :=
  if truthy num then py_gt_zero num else Ok false.

(** Lines 204-209. *)
Definition hvac_status (heat_num cool_num : value) : result event :=
  match and_positive heat_num with
  | Raise e => Raise e
  | Ok true => Ok (EvHeating heat_num)
  | Ok false =>
      match and_positive cool_num with
      | Raise e => Raise e
      | Ok true => Ok (EvCooling cool_num)
      | Ok false => Ok EvIdle
      end
  end.

(** Line 215 on two extracted setpoints: the gap that line 216 prints. *)
Definition gap_of (user_sp eff_sp : option PyFloat.float)
    : option PyFloat.float :=
  match user_sp, eff_sp with
  | Some u, Some e =>
      if PyFloat.nonzero u && PyFloat.nonzero e
         && PyFloat.ltb PyFloat.tenth (PyFloat.abs (PyFloat.sub u e))
      then Some (PyFloat.abs (PyFloat.sub u e))
      else None
  | _, _ => None
  end.

(** Lines 212-218: the [try] swallows every exception. *)
Definition setpoint_gap (the_fcu : list (pystr * value)) : list event :=
  match extractNumericValue (field the_fcu "nviSetpoint") with
  | Raise _ => []
  | Ok user_sp =>
      match extractNumericValue (field the_fcu "nvoEffectSetpt") with
      | Raise _ => []
      | Ok eff_sp =>
          match gap_of user_sp eff_sp, user_sp, eff_sp with
          | Some gap, Some u, Some e => [EvSetpointGap gap u e]
          | _, _, _ => []
          end
      end
  end.

Open Scope io_scope.

Definition print_all (l : list event) : io unit := (l, Ok tt).

(** Lines 155-218.  [the_fcu.get] raises on anything that is not a dict,
    after the heading of line 155 is printed. *)
Definition report_fcu (the_fcu : value) : io unit :=
  print (EvRawValues the_fcu);;
  match the_fcu with
  | VDict items =>
      print_all (List.map (fun '(f, text) => EvRaw f text) (raw_values items));;
      print (EvFields (List.length items) (all_fields items));;
      print (EvSupplyCandidates (supply_temp_candidates items));;
      heat_num <- lift (heat_num items);;
      cool_num <- lift (cool_num items);;
      status <- lift (hvac_status heat_num cool_num);;
      print status;;
      print_all (setpoint_gap items)
  | _ => lift (Raise AttributeError)
  end.

(** Lines 55-57: [total_seconds] divides the microseconds by [10**6]. *)
Definition time_since_last (st : tracking) (received_at : Z)
    : option PyFloat.float :=
  match last_message_time st with
  | Some t => Some (PyFloat.of_quotient (received_at - t) 1000000)
  | None => None
  end.

(** Line 60. *)
Definition is_new_data (st : tracking) (data_timestamp : value) : bool :=
  py_ne data_timestamp (last_data_timestamp st).

(** Lines 223-224. *)
Definition update_tracking (st : tracking) (received_at : Z)
    (data_timestamp : value) : tracking :=
  {| last_message_time := Some received_at;
     last_data_timestamp := data_timestamp;
     message_count := message_count st |}.

(** Lines 52-220, the body of the [try]: it returns the data timestamp that
    lines 223-224 store.  [payload.get] raises on anything that is not a
    dict. *)
Definition process (st : tracking) (received_at : Z) (size : nat)
    (payload : value) : io value :=
  match payload with
  | VDict top =>
      let data_timestamp :=
        dict_get_default top (PyStr.lit "timestamp") (VStr (PyStr.lit "N/A")) in
      print (EvMessage (message_count st) received_at data_timestamp size);;
      match time_since_last st received_at with
      | Some seconds =>
          when (PyFloat.nonzero seconds) (print (EvTimeSinceLast seconds))
      | None => ret tt
      end;;
      (if is_new_data st data_timestamp then
         print EvNewData;;
         when (truthy (last_data_timestamp st))
              (print (EvPrevious (last_data_timestamp st) data_timestamp))
       else print EvDuplicate);;
      match lookup top (PyStr.lit "status") with
      | Some status =>
          fcu_count <- lift (py_len status);;
          print (EvFcuCount fcu_count)
      | None => ret tt
      end;;
      print (EvPayload payload);;
      match lookup top (PyStr.lit "status") with
      | Some status =>
          found <- lift (py_in fcu_key status);;
          if found : bool then
            the_fcu <- lift (py_getitem status fcu_key);;
            report_fcu the_fcu
          else ret tt
      | None => ret tt
      end;;
      print EvSeparator;;
      ret data_timestamp
  | _ => lift (Raise AttributeError)
  end.

(** Lines 44-229.  The counter is advanced before the [try]; the two other
    variables are assigned at its end, so an exception leaves them as they
    were. *)
Definition on_message (st : tracking) (received_at : Z)
    (msg_payload : list Byte.byte) : tracking * list event :=
  let st :=
    {| last_message_time := last_message_time st;
       last_data_timestamp := last_data_timestamp st;
       message_count := message_count st + 1 |} in
  match json_loads msg_payload with
  | Loaded payload =>
      match process st received_at (List.length msg_payload) payload with
      | (out, Ok data_timestamp) =>
          (update_tracking st received_at data_timestamp, out)
      | (out, Raise _) => (st, out ++ [EvError])
      end
  | JSONDecodeError => (st, [EvParseFailed])
  | LoadsError => (st, [EvError])
  end.

(** The messages of a connection, each with the time [datetime.now()]
    gives when it arrives, handled one after the other. *)
Fixpoint run (st : tracking) (msgs : list (Z * list Byte.byte))
    : tracking * list (list event) :=
  match msgs with
  | [] => (st, [])
  | (received_at, msg_payload) :: rest =>
      let '(st', out) := on_message st received_at msg_payload in
      let '(st'', outs) := run st' rest in
      (st'', out :: outs)
  end.

Close Scope io_scope.

End Monitor.

(** ** A decoder for concrete payloads

    [Json.loads] follows [bytes.decode('utf-8')] and the scanner of the
    [json] module, so that the handler can be run on the bytes of a message.
    The theorems below hold for every decoder; this one supplies the
    concrete runs.  It does not reproduce the recursion limit of the
    interpreter nor its limit on the number of digits of an integer. *)

Module Json.

Definition continuation (b : N) : option N :=
  if N.leb 128 b && N.ltb b 192 then Some (b - 128)%N else None.

(** Strict UTF-8: no overlong form, no surrogate, nothing above U+10FFFF. *)
Fixpoint utf8_decode (bs : list N) : option pystr :=
  match bs with
  | [] => Some []
  | b0 :: r0 =>
      if N.ltb b0 128 then option_map (cons b0) (utf8_decode r0)
      else if N.leb 194 b0 && N.ltb b0 224 then
        match r0 with
        | b1 :: r1 =>
            match continuation b1 with
            | Some c1 =>
                option_map (cons ((b0 - 192) * 64 + c1)%N) (utf8_decode r1)
            | None => None
            end
        | _ => None
        end
      else if N.leb 224 b0 && N.ltb b0 240 then
        match r0 with
        | b1 :: b2 :: r2 =>
            match continuation b1, continuation b2 with
            | Some c1, Some c2 =>
                let cp := ((b0 - 224) * 4096 + c1 * 64 + c2)%N in
                if N.leb 2048 cp && negb (N.leb 55296 cp && N.leb cp 57343)
                then option_map (cons cp) (utf8_decode r2) else None
            | _, _ => None
            end
        | _ => None
        end
      else if N.leb 240 b0 && N.ltb b0 245 then
        match r0 with
        | b1 :: b2 :: b3 :: r3 =>
            match continuation b1, continuation b2, continuation b3 with
            | Some c1, Some c2, Some c3 =>
                let cp := ((b0 - 240) * 262144 + c1 * 4096 + c2 * 64 + c3)%N in
                if N.leb 65536 cp && N.leb cp 1114111
                then option_map (cons cp) (utf8_decode r3) else None
            | _, _, _ => None
            end
        | _ => None
        end
      else None
  end.

Definition is_ws (c : N) : bool :=
  N.eqb c 32 || N.eqb c 9 || N.eqb c 10 || N.eqb c 13.

Fixpoint skip_ws (s : pystr) : pystr :=
  match s with
  | c :: s' => if is_ws c then skip_ws s' else s
  | [] => []
  end.

Definition hex_value (c : N) : option N :=
  if N.leb 48 c && N.leb c 57 then Some (c - 48)%N
  else if N.leb 97 c && N.leb c 102 then Some (c - 87)%N
  else if N.leb 65 c && N.leb c 70 then Some (c - 55)%N
  else None.

Definition hex4 (a b c d : N) : option N :=
  match hex_value a, hex_value b, hex_value c, hex_value d with
  | Some x, Some y, Some z, Some w => Some (x * 4096 + y * 256 + z * 16 + w)%N
  | _, _, _, _ => None
  end.

Definition simple_escape (c : N) : option N :=
  if N.eqb c 34 then Some 34%N          (* quote *)
  else if N.eqb c 92 then Some 92%N     (* backslash *)
  else if N.eqb c 47 then Some 47%N     (* slash *)
  else if N.eqb c 98 then Some 8%N      (* b *)
  else if N.eqb c 102 then Some 12%N    (* f *)
  else if N.eqb c 110 then Some 10%N    (* n *)
  else if N.eqb c 114 then Some 13%N    (* r *)
  else if N.eqb c 116 then Some 9%N     (* t *)
  else None.

Definition is_high (u : N) : bool := N.leb 55296 u && N.leb u 56319.
Definition is_low (u : N) : bool := N.leb 56320 u && N.leb u 57343.

(** The text after an opening quote, up to the closing one, and the rest. *)
Fixpoint scan_string (s : pystr) : option (pystr * pystr) :=
  let push (c : N) (r : option (pystr * pystr)) :=
    match r with
    | Some (body, rest) => Some (c :: body, rest)
    | None => None
    end in
  match s with
  | [] => None
  | c :: r =>
      if N.eqb c 34 then Some ([], r)
      else if N.eqb c 92 then
        match r with
        | [] => None
        | e :: r1 =>
            if N.eqb e 117 then
              match r1 with
              | h1 :: h2 :: h3 :: h4 :: r2 =>
                  match hex4 h1 h2 h3 h4 with
                  | None => None
                  | Some u =>
                      match r2 with
                      | b :: u' :: l1 :: l2 :: l3 :: l4 :: r3 =>
                          if is_high u && N.eqb b 92 && N.eqb u' 117 then
                            match hex4 l1 l2 l3 l4 with
                            | None => None
                            | Some w =>
                                if is_low w
                                then push (65536 + (u - 55296) * 1024
                                           + (w - 56320))%N (scan_string r3)
                                else push u (scan_string r2)
                            end
                          else push u (scan_string r2)
                      | _ => push u (scan_string r2)
                      end
                  end
              | _ => None
              end
            else
              match simple_escape e with
              | Some x => push x (scan_string r1)
              | None => None
              end
        end
      else if N.ltb c 32 then None
      else push c (scan_string r)
  end.

Definition is_digit (c : N) : bool := N.leb 48 c && N.leb c 57.

(** The ASCII digits at the start of [s], their value after [acc], their
    number, and the rest. *)
Fixpoint digits (acc : Z) (n : nat) (s : pystr) : Z * nat * pystr :=
  match s with
  | c :: s' =>
      if is_digit c then digits (10 * acc + Z.of_N (c - 48)) (S n) s'
      else (acc, n, s)
  | [] => (acc, n, [])
  end.

(** The number at the start of [s]: an [int] without fraction and exponent,
    a [float] otherwise. *)
Definition scan_number (s : pystr) : option (value * pystr) :=
  let '(neg, s1) :=
    match s with
    | c :: s' => if N.eqb c 45 then (true, s') else (false, s)
    | [] => (false, s)
    end in
  let int_part :=
    match s1 with
    | c :: s' =>
        if N.eqb c 48 then Some (0%Z, s')
        else if is_digit c then let '(m, _, r) := digits 0 0 s1 in Some (m, r)
        else None
    | [] => None
    end in
  match int_part with
  | None => None
  | Some (m, s2) =>
      let '(m, nfrac, s3) :=
        match s2 with
        | c :: s' =>
            if N.eqb c 46 then
              match digits m 0 s' with
              | (_, O, _) => (m, None, s2)
              | (m', n, r) => (m', Some n, r)
              end
            else (m, None, s2)
        | [] => (m, None, s2)
        end in
      let '(expo, s4) :=
        match s3 with
        | c :: s' =>
            if N.eqb c 101 || N.eqb c 69 then
              let '(eneg, s'') :=
                match s' with
                | d :: t =>
                    if N.eqb d 45 then (true, t)
                    else if N.eqb d 43 then (false, t) else (false, s')
                | [] => (false, s')
                end in
              match digits 0 0 s'' with
              | (_, O, _) => (None, s3)
              | (x, _, r) => (Some (if eneg then - x else x)%Z, r)
              end
            else (None, s3)
        | [] => (None, s3)
        end in
      match nfrac, expo with
      | None, None => Some (VInt (if neg then - m else m), s4)
      | _, _ =>
          let e10 :=
            ((match expo with Some x => x | None => 0 end)
             - Z.of_nat (match nfrac with Some n => n | None => O end))%Z in
          let f :=
            match e10 with
            | Zneg p => PyFloat.of_ratio neg m (10 ^ Z.pos p)
            | _ => PyFloat.of_ratio neg (m * 10 ^ e10) 1
            end in
          Some (VFloat f, s4)
      end
  end.

(** [d[k] = v]: a key keeps the place of its first insertion. *)
Fixpoint dict_set (d : list (pystr * value)) (k : pystr) (v : value)
    : list (pystr * value) :=
  match d with
  | [] => [(k, v)]
  | (k', v') :: d' =>
      if PyStr.eqb k' k then (k', v) :: d' else (k', v') :: dict_set d' k v
  end.

Definition literal (word : string) (v : value) (s : pystr)
    : option (value * pystr) :=
  let w := PyStr.lit word in
  if PyStr.starts_with w s then Some (v, List.skipn (List.length w) s)
  else None.

Fixpoint scan_once (fuel : nat) (s : pystr) {struct fuel}
    : option (value * pystr) :=
  match fuel with
  | O => None
  | S fuel =>
      match s with
      | [] => None
      | c :: r =>
          if N.eqb c 34 then
            match scan_string r with
            | Some (body, rest) => Some (VStr body, rest)
            | None => None
            end
          else if N.eqb c 123 then
            match skip_ws r with
            | c' :: r' =>
                if N.eqb c' 125 then Some (VDict [], r')
                else members fuel [] (c' :: r')
            | [] => None
            end
          else if N.eqb c 91 then
            match skip_ws r with
            | c' :: r' =>
                if N.eqb c' 93 then Some (VList [], r')
                else elements fuel [] (c' :: r')
            | [] => None
            end
          else if N.eqb c 110 then literal "null" VNone s
          else if N.eqb c 116 then literal "true" (VBool true) s
          else if N.eqb c 102 then literal "false" (VBool false) s
          else if N.eqb c 78 then literal "NaN" (VFloat S754_nan) s
          else if N.eqb c 73 then
            literal "Infinity" (VFloat (S754_infinity false)) s
          else if PyStr.starts_with (PyStr.lit "-Infinity") s then
            literal "-Infinity" (VFloat (S754_infinity true)) s
          else scan_number s
      end
  end

(** The items of an object from a key on, [acc] holding those read. *)
with members (fuel : nat) (acc : list (pystr * value)) (s : pystr)
    {struct fuel} : option (value * pystr) :=
  match fuel with
  | O => None
  | S fuel =>
      match s with
      | c :: r =>
          if N.eqb c 34 then
            match scan_string r with
            | Some (key, r1) =>
                match skip_ws r1 with
                | c1 :: r2 =>
                    if N.eqb c1 58 then
                      match scan_once fuel (skip_ws r2) with
                      | Some (v, r3) =>
                          let acc := dict_set acc key v in
                          match skip_ws r3 with
                          | c3 :: r4 =>
                              if N.eqb c3 125 then Some (VDict acc, r4)
                              else if N.eqb c3 44
                              then members fuel acc (skip_ws r4)
                              else None
                          | [] => None
                          end
                      | None => None
                      end
                    else None
                | [] => None
                end
            | None => None
            end
          else None
      | [] => None
      end
  end

(** The items of an array from a value on, [acc] holding those read, last
    first. *)
with elements (fuel : nat) (acc : list value) (s : pystr) {struct fuel}
    : option (value * pystr) :=
  match fuel with
  | O => None
  | S fuel =>
      match scan_once fuel s with
      | Some (v, r) =>
          match skip_ws r with
          | c :: r' =>
              if N.eqb c 93 then Some (VList (List.rev (v :: acc)), r')
              else if N.eqb c 44 then elements fuel (v :: acc) (skip_ws r')
              else None
          | [] => None
          end
      | None => None
      end
  end.

Definition loads_str (s : pystr) : loads_result :=
  if PyStr.starts_with [65279%N] s then JSONDecodeError
  else
    match scan_once (2 * List.length s + 2) (skip_ws s) with
    | Some (v, rest) =>
        match skip_ws rest with
        | [] => Loaded v
        | _ => JSONDecodeError
        end
    | None => JSONDecodeError
    end.

Definition loads (msg_payload : list Byte.byte) : loads_result :=
  match utf8_decode (List.map Byte.to_N msg_payload) with
  | Some s => loads_str s
  | None => LoadsError
  end.

(** The bytes of an ASCII text in which an apostrophe stands for the double
    quote of JSON. *)
Definition text (s : string) : list Byte.byte :=
  List.map (fun b => match b with Byte.x27 => Byte.x22 | _ => b end)
           (list_byte_of_string s).

End Json.

(** ** The connection callbacks and [main]

    What the paho client does is an input of the model: whether [connect]
    raises, which callbacks [loop_forever] invokes before it stops, and how
    it stops.  The calls made on the client and the lines printed are kept
    in the order the code makes them. *)

(** [MQTT_CONFIG], lines 19-26. *)
Record config := {
  host : pystr;
  port : Z;
  username : pystr;
  password : pystr;
  topic : pystr
}.

Inductive client_call :=
| NewClient                                      (* line 245 *)
| UsernamePwSet (user pass : pystr)              (* line 248 *)
| TlsSet                                         (* line 251 *)
| SetCallbacks                                   (* lines 254-256 *)
| Connect (to : pystr) (on_port keepalive : Z)   (* line 260 *)
| Subscribe (to : pystr)                         (* line 36 *)
| LoopForever                                    (* line 263 *)
| Disconnect.                                    (* line 268 *)

Inductive line :=
| LnConnected (to : pystr)                       (* line 35 *)
| LnSubscribed (to : pystr)                      (* line 37 *)
| LnMonitoring                                   (* lines 38-40 *)
| LnConnectionFailed (reason_code : Z)           (* line 42 *)
| LnUnexpectedDisconnection (reason_code : Z)    (* line 233 *)
| LnDisconnectedCleanly                          (* line 235 *)
| LnMonitor (to : pystr) (on_port : Z) (on_topic : pystr) (* lines 238-241 *)
| LnConnecting                                   (* line 242 *)
| LnStopped                                      (* line 266 *)
| LnSummary (count : Z)                          (* line 267 *)
| LnError.                                       (* line 270 *)

(** One thing the program does: a line on the console, the lines of one
    call of [on_message], or a call on the client. *)
Inductive step :=
| Console (l : line)
| Handled (out : list event)
| Client (c : client_call).

(** A callback that [loop_forever] invokes; a message comes with the time
    [datetime.now()] gives in the handler. *)
Inductive callback :=
| Connack (reason_code : Z)
| Publish (received_at : Z) (msg_payload : list Byte.byte)
| Disconnected (reason_code : Z).

(** What stops [connect] or [loop_forever]. *)
Inductive interruption :=
| KeyboardInterrupt
| OtherException.

Section Session.

Variable py_repr : value -> pystr.
Variable json_loads : list Byte.byte -> loads_result.
Variable MQTT_CONFIG : config.

(** Lines 33-42. *)
Definition on_connect (reason_code : Z) : list step :=
  if Z.eqb reason_code 0 then
    [Console (LnConnected (host MQTT_CONFIG));
     Client (Subscribe (topic MQTT_CONFIG));
     Console (LnSubscribed (topic MQTT_CONFIG));
     Console LnMonitoring]
  else [Console (LnConnectionFailed reason_code)].

(** Lines 231-235. *)
Definition on_disconnect (reason_code : Z) : list step :=
  if negb (Z.eqb reason_code 0)
  then [Console (LnUnexpectedDisconnection reason_code)]
  else [Console LnDisconnectedCleanly].

(** The callbacks set at lines 254-256, run on what the client delivers.
    [loop_forever] calls them one after the other on its own thread; each
    one is taken to run to its end, so that what stops the loop comes
    between two callbacks. *)
Fixpoint deliver (st : tracking) (calls : list callback)
    : tracking * list step :=
  match calls with
  | [] => (st, [])
  | c :: rest =>
      let '(st1, out) :=
        match c with
        | Connack reason_code => (st, on_connect reason_code)
        | Publish received_at msg_payload =>
            let '(st1, lines) :=
              on_message py_repr json_loads st received_at msg_payload in
            (st1, [Handled lines])
        | Disconnected reason_code => (st, on_disconnect reason_code)
        end in
      let '(st2, outs) := deliver st1 rest in
      (st2, out ++ outs)
  end.

(** Lines 237-270.  [connect_raises] is what [client.connect] raises, if
    anything; [calls] are the callbacks invoked by [loop_forever] and
    [loop_ends] is what stops it, [None] when it returns. *)
Definition main (st : tracking) (connect_raises : option interruption)
    (calls : list callback) (loop_ends : option interruption)
    : tracking * list step :=
  let setup :=
    [Console (LnMonitor (host MQTT_CONFIG) (port MQTT_CONFIG)
                        (topic MQTT_CONFIG));
     Console LnConnecting;
     Client NewClient;
     Client (UsernamePwSet (username MQTT_CONFIG) (password MQTT_CONFIG));
     Client TlsSet;
     Client SetCallbacks;
     Client (Connect (host MQTT_CONFIG) (port MQTT_CONFIG) 60)] in
  let '(st1, body, raised) :=
    match connect_raises with
    | Some e => (st, [], Some e)
    | None =>
        let '(st1, out) := deliver st calls in
        (st1, Client LoopForever :: out, loop_ends)
    end in
  let handler :=
    match raised with
    | Some KeyboardInterrupt =>
        [Console LnStopped;
         Console (LnSummary (message_count st1));
         Client Disconnect]
    | Some OtherException => [Console LnError]
    | None => []
    end in
  (st1, setup ++ body ++ handler).

End Session.

(** * Vocabulary of the statements

    Names for the values, the parts of the output and the parts of the
    handler that the properties below speak about. *)

(** ** Decoded values *)

Definition NA : pystr := PyStr.lit "N/A".

(** What [parse_value] builds from a token and a status word. *)
Definition rendered (num status : pystr) : pystr :=
  num ++ PyStr.lit " {" ++ status ++ PyStr.lit "}".

Definition good_token (tok : pystr) : Prop :=
  (tok <> [] /\ Forall (fun c => Regex.token_char c = true) tok)
  \/ tok = PyStr.lit "nan".

Definition good_status (word : pystr) : Prop :=
  word <> [] /\ Forall (fun c => c <> PyStr.rbrace) word.

(** ** Concrete values used in the examples *)

(** In the examples every field of a unit record is a string, so [str] of a
    float, list or dict is never called; this function stands for it. *)
Definition repr_unused : value -> pystr := fun _ => PyStr.lit "?".

Definition minus : N := 45.
Definition degree : N := 176.


(** The text [-3.5 °C {ok}]. *)
Definition temp_minus_3_5 : pystr :=
  minus :: PyStr.lit "3.5 " ++ degree :: PyStr.lit "C {ok}".

(** An item of a unit record: a field name and its encoded string. *)
Definition item (name encoded : string) : pystr * value :=
  (PyStr.lit name, VStr (PyStr.lit encoded)).

(** A decimal literal as a float: [dec 225 1] is [22.5]. *)
Definition dec (m : Z) (frac : nat) : PyFloat.float :=
  PyFloat.of_ratio false m (10 ^ Z.of_nat frac).

(** ** Alias resolution *)

Definition heat_aliases : list string :=
  ["nvoHeatOutput"; "nvoHeatPrimary"; "nvoHeatOut"]%string.
Definition cool_aliases : list string :=
  ["nvoCoolOutput"; "nvoCoolPrimary"; "nvoCoolOut"]%string.
Definition fan_aliases : list string :=
  ["nvoFanSpeed"; "nvoFanSpeed_state"]%string.
Definition occup_aliases : list string :=
  ["nvoOccup"; "nvoEffectOccup"]%string.

(** The resolution as the specification words it: the first alias, in
    order, that is present with a value other than "N/A". *)
Fixpoint spec_first_present (aliases : list string)
    (the_fcu : list (pystr * value)) : value :=
  match aliases with
  | [] => VNone
  | a :: rest =>
      match lookup the_fcu (PyStr.lit a) with
      | Some v =>
          if py_eq v (VStr NA) then spec_first_present rest the_fcu else v
      | None => spec_first_present rest the_fcu
      end
  end.

(** What a chain of [or] computes: the value of the first alias that is
    truthy and, when none is, the value of the last alias. *)
Fixpoint first_truthy (aliases : list string)
    (the_fcu : list (pystr * value)) : value :=
  match aliases with
  | [] => VNone
  | [a] => field the_fcu a
  | a :: rest =>
      if truthy (field the_fcu a) then field the_fcu a
      else first_truthy rest the_fcu
  end.

(** ** Derived status *)

Definition fzero : PyFloat.float := S754_zero false.



(** ** Lines of the output *)

Module Trace.

(** The lines that tell new data from duplicate data. *)
Definition is_classification (e : event) : bool :=
  match e with
  | EvNewData | EvDuplicate => true
  | _ => false
  end.

(** The lines that show a raw value. *)
Definition is_raw (e : event) : bool :=
  match e with
  | EvRaw _ _ => true
  | _ => false
  end.

Definition classification (out : list event) : list event :=
  List.filter is_classification out.

Definition raw_lines (out : list event) : list event :=
  List.filter is_raw out.


End Trace.

(** ** Parts of the body of the [try] *)

Module Body.

Definition status_key : pystr := PyStr.lit "status".
Definition timestamp_key : pystr := PyStr.lit "timestamp".

(** The data timestamp of a payload that is a dict (line 52). *)
Definition data_timestamp_of (top : list (pystr * value)) : value :=
  dict_get_default top timestamp_key (VStr NA).

(** Line 68. *)
Definition timing_events (st : tracking) (received_at : Z) : list event :=
  match time_since_last st received_at with
  | Some seconds =>
      if PyFloat.nonzero seconds then [EvTimeSinceLast seconds] else []
  | None => []
  end.

(** Lines 70-76. *)
Definition classification_events (st : tracking) (data_timestamp : value)
    : list event :=
  if is_new_data st data_timestamp then
    EvNewData ::
    (if truthy (last_data_timestamp st)
     then [EvPrevious (last_data_timestamp st) data_timestamp] else [])
  else [EvDuplicate].

(** Lines 78-220, after the classification is printed. *)
Definition unit_part (py_repr : value -> pystr) (top : list (pystr * value))
    (data_timestamp : value) : io value :=
  bind
    match lookup top status_key with
    | Some status =>
        bind (lift (py_len status)) (fun fcu_count =>
        print (EvFcuCount fcu_count))
    | None => ret tt
    end
    (fun _ =>
     bind (print (EvPayload (VDict top))) (fun _ =>
     bind
       match lookup top status_key with
       | Some status =>
           bind (lift (py_in fcu_key status)) (fun found : bool =>
           if found then
             bind (lift (py_getitem status fcu_key)) (fun the_fcu =>
             report_fcu py_repr the_fcu)
           else ret tt)
       | None => ret tt
       end
       (fun _ => bind (print EvSeparator) (fun _ => ret data_timestamp)))).

(** The state after line 47. *)
Definition counted (st : tracking) : tracking :=
  {| last_message_time := last_message_time st;
     last_data_timestamp := last_data_timestamp st;
     message_count := message_count st + 1 |}.

End Body.

(** ** Further vocabulary *)

Module More.

(** The two lines that report a failure (lines 227 and 229). *)
Definition is_diagnostic (e : event) : bool :=
  match e with
  | EvParseFailed | EvError => true
  | _ => false
  end.

(** A call of the handler that printed no failure. *)
Definition clean (out : list event) : bool :=
  List.forallb (fun e => negb (is_diagnostic e)) out.

(** The number of dots of a token, and whether it has a digit. *)
Definition count_dots (tok : pystr) : nat :=
  List.length (List.filter (N.eqb PyStr.dot) tok).

Definition has_digit (tok : pystr) : bool :=
  List.existsb PyStr.is_decimal tok.

(** The messages among the callbacks, in order. *)
Fixpoint publishes (calls : list callback) : list (Z * list Byte.byte) :=
  match calls with
  | [] => []
  | Publish received_at msg_payload :: rest =>
      (received_at, msg_payload) :: publishes rest
  | _ :: rest => publishes rest
  end.

(** The number of acknowledgements with reason code 0. *)
Fixpoint accepted (calls : list callback) : nat :=
  match calls with
  | [] => O
  | Connack reason_code :: rest =>
      if Z.eqb reason_code 0 then S (accepted rest) else accepted rest
  | _ :: rest => accepted rest
  end.

Definition is_subscribe (s : step) : bool :=
  match s with
  | Client (Subscribe _) => true
  | _ => false
  end.

Definition is_disconnect (s : step) : bool :=
  match s with
  | Client Disconnect => true
  | _ => false
  end.

(** The arrival time that is stored after a list of handled messages: the
    one of the last message whose output is clean. *)
Fixpoint last_clean (stored : option Z)
    (handled : list (Z * list event)) : option Z :=
  match handled with
  | [] => stored
  | (received_at, out) :: rest =>
      last_clean (if clean out then Some received_at else stored) rest
  end.

(** The order of [sorted] as a relation. *)
Definition str_le (a b : pystr) : Prop := PyStr.leb a b = true.



Definition is_summary (s : step) : bool :=
  match s with
  | Console (LnSummary _) => true
  | _ => false
  end.

End More.

(** * Properties *)

(** ** Strings and equality *)

Module PyStrFacts.

Lemma eqb_spec s t : reflect (s = t) (PyStr.eqb s t).
Proof.
  revert t; induction s as [|c s IH]; intros [|d t]; simpl;
    try (constructor; congruence).
  destruct (N.eqb_spec c d) as [->|Hn]; simpl.
  - destruct (IH t) as [->|Hn]; constructor; congruence.
  - constructor; congruence.
Qed.

Lemma eqb_refl s : PyStr.eqb s s = true.
Proof. destruct (eqb_spec s s); congruence. Qed.

End PyStrFacts.

Module PyValueFacts.


Lemma py_eq_str_r s v : py_eq v (VStr s) = true <-> v = VStr s.
Proof.
  destruct v; simpl; try (split; [discriminate | discriminate]).
  destruct (PyStrFacts.eqb_spec s0 s); split; congruence.
Qed.

End PyValueFacts.

(** ** Characters and tokens *)

Module RegexFacts.

Import Regex.

Lemma token_char_not c :
  token_char c = true ->
  c <> PyStr.space /\ c <> PyStr.lbrace /\ c <> PyStr.rbrace /\ c <> 78%N
  /\ c <> 45%N.
Proof.
  intros H; repeat split; intros ->; vm_compute in H; discriminate.
Qed.

Lemma digits_dots_all s : Forall (fun c => token_char c = true) (digits_dots s).
Proof.
  induction s as [|c s IH]; simpl; [constructor|].
  fold (token_char c). destruct (token_char c) eqn:E; constructor; assumption.
Qed.



(** A token followed by a character outside the class is read back whole. *)
Lemma digits_dots_app tok c rest :
  Forall (fun c => token_char c = true) tok ->
  token_char c = false ->
  digits_dots (tok ++ c :: rest) = tok.
Proof.
  intros Htok Hc; induction Htok as [|d tok Hd _ IH]; simpl.
  - fold (token_char c). rewrite Hc. reflexivity.
  - fold (token_char d). rewrite Hd, IH. reflexivity.
Qed.


(** The two shapes of a token. *)
Lemma match_number_or_nan_shape s tok :
  match_number_or_nan s = Some tok ->
  (tok <> [] /\ Forall (fun c => token_char c = true) tok)
  \/ tok = PyStr.lit "nan".
Proof.
  unfold match_number_or_nan.
  pose proof (digits_dots_all s) as Hall.
  destruct (digits_dots s) as [|c t] eqn:E.
  - destruct (PyStr.starts_with _ s); [|discriminate].
    intros [= <-]. right. reflexivity.
  - intros [= <-]. left. split; [discriminate | assumption].
Qed.

Lemma until_rbrace_spec s :
  let '(run, rest) := until_rbrace s in
  s = run ++ rest
  /\ Forall (fun c => c <> PyStr.rbrace) run
  /\ match rest with [] => True | c :: _ => c = PyStr.rbrace end.
Proof.
  induction s as [|c s IH]; simpl.
  - repeat split; constructor.
  - destruct (N.eqb_spec c PyStr.rbrace) as [->|Hc].
    + repeat split; constructor.
    + destruct (until_rbrace s) as [run rest].
      destruct IH as (-> & Hrun & Hrest).
      repeat split; [constructor; assumption | assumption].
Qed.

Lemma until_rbrace_app run rest :
  Forall (fun c => c <> PyStr.rbrace) run ->
  until_rbrace (run ++ PyStr.rbrace :: rest) = (run, PyStr.rbrace :: rest).
Proof.
  induction 1 as [|c run Hc _ IH]; simpl; [reflexivity|].
  destruct (N.eqb_spec c PyStr.rbrace); [contradiction|].
  rewrite IH. reflexivity.
Qed.

(** A status word found by the search is not empty and has no closing
    brace. *)
Lemma search_braced_word s word :
  search_braced s = Some word ->
  word <> [] /\ Forall (fun c => c <> PyStr.rbrace) word.
Proof.
  induction s as [|c s IH]; simpl; [discriminate|].
  destruct (N.eqb c PyStr.lbrace); [|assumption].
  pose proof (until_rbrace_spec s) as Hs.
  destruct (until_rbrace s) as [[|d run] [|e rest]]; try assumption.
  destruct Hs as (_ & Hrun & _).
  intros [= <-]. split; [discriminate | assumption].
Qed.

(** Searching a text without opening brace, followed by a braced word. *)
Lemma search_braced_app pre word rest :
  Forall (fun c => c <> PyStr.lbrace) pre ->
  word <> [] ->
  Forall (fun c => c <> PyStr.rbrace) word ->
  search_braced (pre ++ PyStr.lbrace :: word ++ PyStr.rbrace :: rest)
  = Some word.
Proof.
  intros Hpre Hne Hword.
  induction Hpre as [|c pre Hc _ IH]; simpl.
  - rewrite (until_rbrace_app word rest Hword).
    destruct word; [contradiction | reflexivity].
  - destruct (N.eqb_spec c PyStr.lbrace); [contradiction | assumption].
Qed.

End RegexFacts.

(** ** Decoding of one value *)

Section ParseValueFacts.

Variable py_repr : value -> pystr.

Import Regex RegexFacts.

Lemma parse_value_none : parse_value py_repr VNone = NA.
Proof. reflexivity. Qed.


(** On a string, [parse_value] is decided by the two patterns. *)
Lemma parse_value_str s :
  parse_value py_repr (VStr s) =
  match match_number_or_nan s with
  | Some num =>
      rendered num match search_braced s with
                   | Some word => word
                   | None => PyStr.lit "ok"
                   end
  | None => s
  end.
Proof.
  unfold parse_value. simpl.
  destruct (PyStrFacts.eqb_spec s (PyStr.lit "N/A")) as [->|Hne]; reflexivity.
Qed.


Lemma good_token_no_lbrace tok :
  good_token tok -> Forall (fun c => c <> PyStr.lbrace) tok.
Proof.
  intros [[_ H] | ->].
  - eapply Forall_impl; [|exact H]. intros c Hc. apply token_char_not, Hc.
  - repeat constructor; discriminate.
Qed.

Lemma match_rendered tok word :
  good_token tok -> match_number_or_nan (rendered tok word) = Some tok.
Proof.
  unfold rendered. change (PyStr.lit " {") with [32; 123]%N. simpl.
  intros [[Hne H] | ->].
  - unfold match_number_or_nan.
    rewrite (digits_dots_app tok 32%N _ H) by reflexivity.
    destruct tok; [contradiction | reflexivity].
  - reflexivity.
Qed.

Lemma search_rendered tok word :
  good_token tok -> good_status word ->
  search_braced (rendered tok word) = Some word.
Proof.
  intros Htok [Hne Hword]. unfold rendered.
  change (PyStr.lit " {") with [32; 123]%N.
  change (PyStr.lit "}") with [PyStr.rbrace].
  change (tok ++ [32; 123]%N ++ word ++ [PyStr.rbrace])
    with (tok ++ [32%N] ++ PyStr.lbrace :: word ++ [PyStr.rbrace]).
  rewrite app_assoc.
  apply search_braced_app; try assumption.
  apply Forall_app. split; [apply good_token_no_lbrace, Htok|].
  repeat constructor; discriminate.
Qed.

Lemma rendered_not_NA tok word : good_token tok -> rendered tok word <> NA.
Proof.
  intros [[Hne H] | ->]; unfold rendered.
  - destruct tok as [|c tok]; [contradiction|].
    inversion H as [|? ? Hc _]; subst.
    intros [= -> _]. apply token_char_not in Hc. tauto.
  - discriminate.
Qed.


Lemma ok_good_status : good_status (PyStr.lit "ok").
Proof. split; [discriminate | repeat constructor; discriminate]. Qed.


(** A string that starts with a minus sign has no leading token. *)
Lemma minus_no_token s :
  match_number_or_nan (45%N :: s) = None /\ match_number (45%N :: s) = None.
Proof. split; reflexivity. Qed.

End ParseValueFacts.

(** ** Value decoding (claims C4 and C9) *)



(** C9. The leading-number patterns accept no sign: for every string that
    begins with a minus sign, such as "-3.5 °C {ok}", [parse_value] returns
    the string verbatim and [extractNumericValue] returns [None]; a heat or
    cool output of that form gives no number and a setpoint of that form
    gives no gap. *)
Theorem C9_leading_minus_is_not_numeric (py_repr : value -> pystr)
    (s : pystr) :
  Regex.match_number_or_nan (minus :: s) = None
  /\ Regex.match_number (minus :: s) = None
  /\ parse_value py_repr (VStr (minus :: s)) = minus :: s
  /\ extractNumericValue py_repr (VStr (minus :: s)) = Ok None
  /\ (forall the_fcu,
        heat_val the_fcu = VStr (minus :: s) ->
        heat_num py_repr the_fcu = Ok VNone)
  /\ (forall the_fcu,
        cool_val the_fcu = VStr (minus :: s) ->
        cool_num py_repr the_fcu = Ok VNone)
  /\ (forall the_fcu,
        field the_fcu "nviSetpoint" = VStr (minus :: s)
        \/ field the_fcu "nvoEffectSetpt" = VStr (minus :: s) ->
        setpoint_gap py_repr the_fcu = []).
Proof.
  assert (Hx : extractNumericValue py_repr (VStr (minus :: s)) = Ok None)
    by reflexivity.
  repeat split; try reflexivity.
  - intros the_fcu H. unfold heat_num. rewrite H. reflexivity.
  - intros the_fcu H. unfold cool_num. rewrite H. reflexivity.
  - intros the_fcu [H | H]; unfold setpoint_gap; rewrite H.
    + rewrite Hx.
      destruct (extractNumericValue py_repr (field the_fcu "nvoEffectSetpt"))
        as [[e|]|]; reflexivity.
    + destruct (extractNumericValue py_repr (field the_fcu "nviSetpoint"))
        as [[u|]|]; try reflexivity; rewrite Hx; reflexivity.
Qed.

Lemma C9_leading_minus_is_not_numeric_witness :
  parse_value repr_unused (VStr temp_minus_3_5) = temp_minus_3_5
  /\ extractNumericValue repr_unused (VStr temp_minus_3_5) = Ok None
  /\ heat_num repr_unused [item "nvoHeatOutput" "-12.0 {ok}"]
     = Ok VNone
  /\ setpoint_gap repr_unused
       [item "nviSetpoint" "-3.5 {ok}"; item "nvoEffectSetpt" "21.0"]
     = [].
Proof.
  destruct (C9_leading_minus_is_not_numeric repr_unused
              (PyStr.lit "3.5 " ++ degree :: PyStr.lit "C {ok}"))
    as (_ & _ & Hp & Hx & _).
  destruct (C9_leading_minus_is_not_numeric repr_unused
              (PyStr.lit "12.0 {ok}")) as (_ & _ & _ & _ & Hh & _).
  destruct (C9_leading_minus_is_not_numeric repr_unused
              (PyStr.lit "3.5 {ok}")) as (_ & _ & _ & _ & _ & _ & Hg).
  split; [exact Hp|]. split; [exact Hx|].
  split; [apply Hh; reflexivity | apply Hg; left; reflexivity].
Defined.

(** ** Alias resolution (claim C2) *)

Lemma first_truthy_takes the_fcu pre a post :
  Forall (fun b => truthy (field the_fcu b) = false) pre ->
  truthy (field the_fcu a) = true ->
  first_truthy (pre ++ a :: post) the_fcu = field the_fcu a.
Proof.
  induction 1 as [|b pre Hb _ IH]; intros Ha; simpl.
  - rewrite Ha. destruct post; reflexivity.
  - rewrite Hb. specialize (IH Ha).
    destruct (pre ++ a :: post) eqn:E; [destruct pre; discriminate|].
    exact IH.
Qed.

Lemma first_truthy_none the_fcu aliases :
  Forall (fun b => truthy (field the_fcu b) = false) aliases ->
  truthy (first_truthy aliases the_fcu) = false.
Proof.
  induction 1 as [|b l Hb _ IH]; simpl; [reflexivity|].
  rewrite Hb. destruct l; assumption.
Qed.

Lemma field_missing the_fcu (a : string) :
  lookup the_fcu (PyStr.lit a) = None -> field the_fcu a = VNone.
Proof. unfold field, dict_get. intros ->. reflexivity. Qed.

Lemma field_present the_fcu (a : string) v :
  lookup the_fcu (PyStr.lit a) = Some v -> field the_fcu a = v.
Proof. unfold field, dict_get. intros ->. reflexivity. Qed.

Lemma or_chain3 a b c :
  py_or (py_or a b) c
  = if truthy a then a else if truthy b then b else c.
Proof.
  unfold py_or. destruct (truthy a) eqn:Ha; [rewrite Ha; reflexivity|].
  reflexivity.
Qed.

Lemma heat_val_first_truthy the_fcu :
  heat_val the_fcu = first_truthy heat_aliases the_fcu.
Proof. unfold heat_val. rewrite or_chain3. reflexivity. Qed.

Lemma cool_val_first_truthy the_fcu :
  cool_val the_fcu = first_truthy cool_aliases the_fcu.
Proof. unfold cool_val. rewrite or_chain3. reflexivity. Qed.

(** C2, as the code has it. Alias resolution tries the alias names in
    priority order and takes the first alias whose value is truthy (present
    and neither null nor empty); the text "N/A" is truthy and is taken, not
    skipped. In particular, if exactly one heat-output alias is present,
    with value "12.0 {ok}", then 12.0 is extracted whichever of the three
    alias names carries it. *)
Theorem C2_alias_resolution (py_repr : value -> pystr)
    (the_fcu : list (pystr * value)) :
  (heat_val the_fcu = first_truthy heat_aliases the_fcu
   /\ cool_val the_fcu = first_truthy cool_aliases the_fcu
   /\ fan_val the_fcu = first_truthy fan_aliases the_fcu
   /\ occup_val the_fcu = first_truthy occup_aliases the_fcu)
  /\ (forall pre a post,
        heat_aliases = pre ++ a :: post ->
        Forall (fun b => truthy (field the_fcu b) = false) pre ->
        truthy (field the_fcu a) = true ->
        heat_val the_fcu = field the_fcu a)
  /\ (forall a,
        In a heat_aliases ->
        lookup the_fcu (PyStr.lit a) = Some (VStr (PyStr.lit "12.0 {ok}")) ->
        (forall b, In b heat_aliases -> b <> a ->
                   lookup the_fcu (PyStr.lit b) = None) ->
        heat_val the_fcu = VStr (PyStr.lit "12.0 {ok}")
        /\ parse_value py_repr (heat_val the_fcu) = PyStr.lit "12.0 {ok}"
        /\ extractNumericValue py_repr (heat_val the_fcu)
           = Ok (Some (dec 120 1))).
Proof.
  split; [|split].
  - split; [apply heat_val_first_truthy|].
    split; [apply cool_val_first_truthy|]. split; reflexivity.
  - intros pre a post E Hpre Ha.
    rewrite heat_val_first_truthy, E.
    apply first_truthy_takes; assumption.
  - intros a Hin Ha Hother.
    assert (Hval : heat_val the_fcu = VStr (PyStr.lit "12.0 {ok}")).
    { unfold heat_val, py_or.
      simpl in Hin. destruct Hin as [<- | [<- | [<- | []]]].
      - rewrite (field_present _ _ _ Ha). reflexivity.
      - rewrite (field_missing _ "nvoHeatOutput").
        + rewrite (field_present _ _ _ Ha). reflexivity.
        + apply Hother; [simpl; tauto | discriminate].
      - rewrite (field_missing _ "nvoHeatOutput").
        + rewrite (field_missing _ "nvoHeatPrimary").
          * rewrite (field_present _ _ _ Ha). reflexivity.
          * apply Hother; [simpl; tauto | discriminate].
        + apply Hother; [simpl; tauto | discriminate]. }
    rewrite Hval. repeat split; vm_compute; reflexivity.
Qed.

Lemma C2_alias_resolution_witness :
  heat_val [item "nvoHeatOut" "12.0 {ok}"; item "nvoSpaceTemp" "21.5 {ok}"]
  = VStr (PyStr.lit "12.0 {ok}")
  /\ extractNumericValue repr_unused
       (heat_val [item "nvoHeatOut" "12.0 {ok}";
                  item "nvoSpaceTemp" "21.5 {ok}"])
     = Ok (Some (dec 120 1))
  /\ heat_val [item "nvoHeatOutput" EmptyString; item "nvoHeatPrimary" "7 {ok}"]
     = VStr (PyStr.lit "7 {ok}").
Proof.
  pose (r1 := [item "nvoHeatOut" "12.0 {ok}"; item "nvoSpaceTemp" "21.5 {ok}"]).
  pose (r2 := [item "nvoHeatOutput" EmptyString; item "nvoHeatPrimary" "7 {ok}"]).
  destruct (C2_alias_resolution repr_unused r1) as (_ & _ & H1).
  destruct (C2_alias_resolution repr_unused r2) as (_ & H2 & _).
  assert (Hb : forall b, In b heat_aliases -> b <> "nvoHeatOut"%string ->
                         lookup r1 (PyStr.lit b) = None).
  { intros b [<- | [<- | [<- | []]]] Hne;
      [reflexivity | reflexivity | contradiction]. }
  destruct (H1 "nvoHeatOut"%string (or_intror (or_intror (or_introl eq_refl)))
              eq_refl Hb) as (Hv & _ & Hx).
  split; [exact Hv|]. split; [exact Hx|].
  apply (H2 ["nvoHeatOutput"%string] "nvoHeatPrimary"%string
            ["nvoHeatOut"%string]); [reflexivity | | reflexivity].
  constructor; [reflexivity | constructor].
Defined.

(** C2 as stated fails: with "N/A" under the first heat alias and
    "12.0 {ok}" under the second, the first alias present with a value other
    than "N/A" is the second one, but the handler takes the "N/A". *)
Lemma C2_counterexample_NA_is_taken :
  let the_fcu := [item "nvoHeatOutput" "N/A";
                  item "nvoHeatPrimary" "12.0 {ok}"] in
  spec_first_present heat_aliases the_fcu = VStr (PyStr.lit "12.0 {ok}")
  /\ heat_val the_fcu = VStr (PyStr.lit "N/A")
  /\ heat_val the_fcu <> spec_first_present heat_aliases the_fcu
  /\ parse_value repr_unused (heat_val the_fcu) = PyStr.lit "N/A"
  /\ extractNumericValue repr_unused (heat_val the_fcu) = Ok None.
Proof. repeat split. discriminate. Qed.

(** ** Derived status (claims C5, C6 and C7) *)







(** The same three cases from unit records, and a record without any heat
    or cool alias, which is idle. *)
Lemma running_state_of_records (py_repr : value -> pystr) :
  let status the_fcu :=
    match heat_num py_repr the_fcu, cool_num py_repr the_fcu with
    | Ok heat, Ok cool => hvac_status heat cool
    | Raise e, _ | _, Raise e => Raise e
    end in
  status [item "nvoHeatOutput" "0 {ok}"; item "nvoCoolOutput" "15 {ok}"]
  = Ok (EvCooling (VFloat (dec 15 0)))
  /\ status [item "nvoHeatOutput" "0 {ok}"; item "nvoCoolOutput" "0 {ok}"]
     = Ok EvIdle
  /\ status [item "nvoHeatOutput" "5 {ok}"; item "nvoCoolOutput" "5 {ok}"]
     = Ok (EvHeating (VFloat (dec 5 0)))
  /\ status [] = Ok EvIdle.
Proof. repeat split; vm_compute; reflexivity. Qed.

(** When both setpoints are numbers other than zero, the gap is the
    absolute difference and is reported exactly when it exceeds 0.1. *)
Lemma gap_of_nonzero user eff :
  PyFloat.nonzero user = true -> PyFloat.nonzero eff = true ->
  gap_of (Some user) (Some eff)
  = if PyFloat.ltb PyFloat.tenth (PyFloat.abs (PyFloat.sub user eff))
    then Some (PyFloat.abs (PyFloat.sub user eff)) else None.
Proof. intros Hu He. unfold gap_of. rewrite Hu, He. reflexivity. Qed.

(** A setpoint that is zero hides the gap, whatever the other one is. *)
Lemma gap_of_zero_user s eff : gap_of (Some (S754_zero s)) eff = None.
Proof. destruct eff; reflexivity. Qed.

(** C6 on the code. A user setpoint 22.5 with effective setpoint 22.0 gives
    the gap 0.5, and 22.5 with 22.45 gives none. But line 215 tests the
    setpoints for truth before it takes their difference: a user setpoint
    0.0 with effective setpoint 21.0, both present and numeric with
    |0.0 - 21.0| = 21.0 > 0.1, gives no gap. *)
Theorem C6_setpoint_gap_on_code (py_repr : value -> pystr) :
  setpoint_gap py_repr
    [item "nviSetpoint" "22.5 {ok}"; item "nvoEffectSetpt" "22.0 {ok}"]
  = [EvSetpointGap (dec 5 1) (dec 225 1) (dec 220 1)]
  /\ setpoint_gap py_repr
       [item "nviSetpoint" "22.5 {ok}"; item "nvoEffectSetpt" "22.45 {ok}"]
     = []
  /\ (let the_fcu := [item "nviSetpoint" "0.0 {ok}";
                      item "nvoEffectSetpt" "21.0 {ok}"] in
      extractNumericValue py_repr (field the_fcu "nviSetpoint")
      = Ok (Some fzero)
      /\ extractNumericValue py_repr (field the_fcu "nvoEffectSetpt")
         = Ok (Some (dec 210 1))
      /\ PyFloat.abs (PyFloat.sub fzero (dec 210 1)) = dec 210 1
      /\ PyFloat.ltb PyFloat.tenth (dec 210 1) = true
      /\ setpoint_gap py_repr the_fcu = []).
Proof. repeat split; vm_compute; reflexivity. Qed.

(** On strings, only "N/A" itself is shown as "N/A". *)
Lemma parse_value_NA_only py_repr s :
  parse_value py_repr (VStr s) = NA -> s = NA.
Proof.
  rewrite parse_value_str.
  destruct (Regex.match_number_or_nan s) as [tok|] eqn:E; [|trivial].
  intros H. apply RegexFacts.match_number_or_nan_shape in E.
  exfalso. exact (rendered_not_NA tok _ E H).
Qed.

(** C7, as the code has it. A missing value and "N/A" are shown by
    [parse_value] as "N/A", which no other string is shown as, and
    [extractNumericValue] gives [None] for both, never a number; a setpoint
    that is missing or "N/A" gives no gap; a heat or cool output that is
    "N/A" gives the number [None]. But a heat or cool output for which no
    alias holds a truthy value, and so one that is missing, is taken as the
    number 0 by lines 200-201. *)
Theorem C7_absent_values (py_repr : value -> pystr)
    (the_fcu : list (pystr * value)) :
  (parse_value py_repr VNone = NA
   /\ parse_value py_repr (VStr NA) = NA
   /\ (forall s, parse_value py_repr (VStr s) = NA -> s = NA))
  /\ (extractNumericValue py_repr VNone = Ok None
      /\ extractNumericValue py_repr (VStr NA) = Ok None)
  /\ (forall absent, absent = VNone \/ absent = VStr NA ->
        (field the_fcu "nviSetpoint" = absent
         \/ field the_fcu "nvoEffectSetpt" = absent) ->
        setpoint_gap py_repr the_fcu = [])
  /\ (heat_val the_fcu = VStr NA -> heat_num py_repr the_fcu = Ok VNone)
  /\ (cool_val the_fcu = VStr NA -> cool_num py_repr the_fcu = Ok VNone)
  /\ (truthy (heat_val the_fcu) = false ->
      heat_num py_repr the_fcu = Ok (VInt 0))
  /\ (truthy (cool_val the_fcu) = false ->
      cool_num py_repr the_fcu = Ok (VInt 0))
  /\ ((forall a, In a heat_aliases -> lookup the_fcu (PyStr.lit a) = None) ->
      heat_num py_repr the_fcu = Ok (VInt 0))
  /\ ((forall a, In a cool_aliases -> lookup the_fcu (PyStr.lit a) = None) ->
      cool_num py_repr the_fcu = Ok (VInt 0)).
Proof.
  assert (Hx : forall absent, absent = VNone \/ absent = VStr NA ->
                 extractNumericValue py_repr absent = Ok None)
    by (intros absent [-> | ->]; reflexivity).
  split; [|split; [|split; [|split; [|split; [|split; [|split; [|split]]]]]]].
  - split; [reflexivity|]. split; [reflexivity|].
    apply parse_value_NA_only.
  - split; reflexivity.
  - intros absent Habs [H | H]; unfold setpoint_gap; rewrite H, (Hx _ Habs).
    + destruct (extractNumericValue py_repr (field the_fcu "nvoEffectSetpt"))
        as [[e|]|]; reflexivity.
    + destruct (extractNumericValue py_repr (field the_fcu "nviSetpoint"))
        as [[u|]|]; reflexivity.
  - intros H. unfold heat_num. rewrite H. reflexivity.
  - intros H. unfold cool_num. rewrite H. reflexivity.
  - intros H. unfold heat_num. rewrite H. reflexivity.
  - intros H. unfold cool_num. rewrite H. reflexivity.
  - intros H. unfold heat_num.
    rewrite heat_val_first_truthy, first_truthy_none; [reflexivity|].
    repeat constructor; rewrite field_missing; try reflexivity;
      apply H; simpl; tauto.
  - intros H. unfold cool_num.
    rewrite cool_val_first_truthy, first_truthy_none; [reflexivity|].
    repeat constructor; rewrite field_missing; try reflexivity;
      apply H; simpl; tauto.
Qed.

Lemma C7_absent_values_witness :
  let the_fcu := [item "nvoHeatOutput" "N/A"; item "nviSetpoint" "N/A";
                  item "nvoEffectSetpt" "21.0 {ok}"] in
  heat_num repr_unused the_fcu = Ok VNone
  /\ cool_num repr_unused the_fcu = Ok (VInt 0)
  /\ setpoint_gap repr_unused the_fcu = []
  /\ PyStr.lit "N/A" = NA.
Proof.
  intros the_fcu.
  destruct (C7_absent_values repr_unused the_fcu)
    as ((_ & _ & Hna) & _ & Hgap & Hheat & _ & _ & _ & _ & Hcool).
  split; [apply Hheat; reflexivity|].
  split; [apply Hcool; intros a [<- | [<- | [<- | []]]]; reflexivity|].
  split; [apply (Hgap (VStr NA)); [right | left]; reflexivity|].
  apply Hna. reflexivity.
Defined.

(** C7 as stated fails: a unit record without any heat-output alias has an
    absent heat output, and lines 200-201 make it the number 0, not
    [None]; the status that follows is the one of a reading of zero. *)
Lemma C7_counterexample_missing_output_is_zero :
  let the_fcu := [item "nvoSpaceTemp" "21.5 {ok}"] in
  heat_val the_fcu = VNone
  /\ heat_num repr_unused the_fcu = Ok (VInt 0)
  /\ heat_num repr_unused the_fcu <> Ok VNone
  /\ cool_num repr_unused the_fcu = Ok (VInt 0)
  /\ py_eq (VInt 0) (VFloat fzero) = true
  /\ hvac_status (VInt 0) (VInt 0) = hvac_status (VFloat fzero) (VFloat fzero).
Proof. repeat split. discriminate. Qed.

(** ** What a run of the handler prints *)

Module TraceFacts.

Import Trace.

Lemma out_bind {A B} (m : io A) (k : A -> io B) :
  fst (bind m k)
  = fst m ++ match snd m with
             | Ok a => fst (k a)
             | Raise _ => []
             end.
Proof.
  destruct m as [out [a|e]]; simpl.
  - destruct (k a). reflexivity.
  - rewrite app_nil_r. reflexivity.
Qed.

Lemma snd_bind {A B} (m : io A) (k : A -> io B) :
  snd (bind m k)
  = match snd m with
    | Ok a => snd (k a)
    | Raise e => Raise e
    end.
Proof.
  destruct m as [out [a|e]]; simpl; [|reflexivity].
  destruct (k a). reflexivity.
Qed.

Lemma filter_bind {A B} (keep : event -> bool) (m : io A) (k : A -> io B) :
  List.filter keep (fst (bind m k))
  = List.filter keep (fst m)
    ++ match snd m with
       | Ok a => List.filter keep (fst (k a))
       | Raise _ => []
       end.
Proof.
  rewrite out_bind, filter_app. destruct (snd m); reflexivity.
Qed.

Lemma filter_print {B} (keep : event -> bool) (e : event)
    (k : unit -> io B) :
  List.filter keep (fst (bind (print e) k))
  = (if keep e then [e] else []) ++ List.filter keep (fst (k tt)).
Proof. rewrite filter_bind. simpl. destruct (keep e); reflexivity. Qed.

Lemma filter_print_all {B} (keep : event -> bool) (l : list event)
    (k : unit -> io B) :
  List.filter keep (fst (bind (print_all l) k))
  = List.filter keep l ++ List.filter keep (fst (k tt)).
Proof. rewrite filter_bind. reflexivity. Qed.

Lemma filter_lift {A B} (keep : event -> bool) (r : result A)
    (k : A -> io B) :
  List.filter keep (fst (bind (lift r) k))
  = match r with
    | Ok a => List.filter keep (fst (k a))
    | Raise _ => []
    end.
Proof. rewrite filter_bind. reflexivity. Qed.

Lemma hvac_status_event heat cool ev :
  hvac_status heat cool = Ok ev ->
  ev = EvHeating heat \/ ev = EvCooling cool \/ ev = EvIdle.
Proof.
  unfold hvac_status.
  destruct (and_positive heat) as [[|]|]; try discriminate.
  - intros [= <-]. tauto.
  - destruct (and_positive cool) as [[|]|]; try discriminate;
      intros [= <-]; tauto.
Qed.

Lemma setpoint_gap_events py_repr items :
  setpoint_gap py_repr items = []
  \/ exists gap u e, setpoint_gap py_repr items = [EvSetpointGap gap u e].
Proof.
  unfold setpoint_gap.
  destruct (extractNumericValue py_repr (field items "nviSetpoint"))
    as [user_sp|]; [|tauto].
  destruct (extractNumericValue py_repr (field items "nvoEffectSetpt"))
    as [eff_sp|]; [|tauto].
  destruct (gap_of user_sp eff_sp) as [gap|]; [|tauto].
  destruct user_sp as [u|]; [|tauto]. destruct eff_sp as [e|]; [|tauto].
  right. exists gap, u, e. reflexivity.
Qed.



Lemma raw_lines_report_other py_repr v :
  (forall items, v <> VDict items) ->
  raw_lines (fst (report_fcu py_repr v)) = [].
Proof.
  intros Hv. unfold raw_lines, report_fcu. rewrite filter_print.
  cbn [is_raw app]. cbv beta.
  destruct v; try reflexivity. exfalso. exact (Hv d eq_refl).
Qed.


End TraceFacts.

(** ** The body of the [try] *)

Module BodyFacts.

Import Trace TraceFacts Body.

Lemma process_split py_repr st received_at size top :
  process py_repr st received_at size (VDict top)
  = (EvMessage (message_count st) received_at (data_timestamp_of top) size
       :: timing_events st received_at
       ++ classification_events st (data_timestamp_of top)
       ++ fst (unit_part py_repr top (data_timestamp_of top)),
     snd (unit_part py_repr top (data_timestamp_of top))).
Proof.
  unfold process, unit_part, data_timestamp_of, timing_events,
    classification_events, status_key, timestamp_key, NA.
  set (ts := dict_get_default top _ _).
  destruct (time_since_last st received_at) as [seconds|];
    [destruct (PyFloat.nonzero seconds)|];
    (destruct (is_new_data st ts);
     [destruct (truthy (last_data_timestamp st))|]);
    (destruct (lookup top (PyStr.lit "status")) as [status|];
     [|reflexivity]);
    (destruct (py_len status); [|reflexivity]);
    (destruct (py_in fcu_key status) as [[|]|]; try reflexivity);
    (destruct (py_getitem status fcu_key) as [the_fcu|]; [|reflexivity]);
    cbv beta iota delta [bind lift when print ret];
    destruct (report_fcu py_repr the_fcu) as [out [[]|e]]; reflexivity.
Qed.

Lemma process_other py_repr st received_at size payload :
  (forall top, payload <> VDict top) ->
  process py_repr st received_at size payload = ([], Raise AttributeError).
Proof.
  intros H. destruct payload; try reflexivity. exfalso. exact (H d eq_refl).
Qed.

(** The body returns the data timestamp or raises. *)
Lemma unit_part_result py_repr top ts v :
  snd (unit_part py_repr top ts) = Ok v -> v = ts.
Proof.
  unfold unit_part. rewrite !snd_bind.
  destruct (snd _); [|discriminate]. simpl.
  destruct (snd _); [|discriminate]. simpl. congruence.
Qed.





End BodyFacts.

(** ** The sign of a rounded quotient *)

Module FloatFacts.

Local Open Scope Z_scope.

Lemma nonneg_leb x : PyFloat.nonneg x -> PyFloat.leb fzero x = true.
Proof. destruct x as [s|s| |s m e]; simpl; intros H; subst; tauto. Qed.

Lemma shr_1_nonneg mrs : 0 <= shr_m mrs -> 0 <= shr_m (shr_1 mrs).
Proof.
  destruct mrs as [m r s]. simpl.
  destruct m as [|p|p]; [| destruct p | destruct p]; simpl; lia.
Qed.

Lemma iter_pos_invariant {A} (P : A -> Prop) (f : A -> A) :
  (forall x, P x -> P (f x)) ->
  forall p x, P x -> P (iter_pos f p x).
Proof.
  intros Hf. induction p as [p IH | p IH |]; intros x Hx; simpl; auto.
Qed.

Lemma shr_nonneg mrs e n :
  0 <= shr_m mrs -> 0 <= shr_m (fst (shr mrs e n)).
Proof.
  intros H. unfold shr. destruct n; simpl; try assumption.
  apply (iter_pos_invariant (fun r => 0 <= shr_m r)); [|assumption].
  apply shr_1_nonneg.
Qed.

Lemma shr_fexp_nonneg m e l :
  0 <= m -> 0 <= shr_m (fst (shr_fexp PyFloat.prec PyFloat.emax m e l)).
Proof.
  intros H. unfold shr_fexp. apply shr_nonneg.
  destruct l as [|[| |]]; exact H.
Qed.

Lemma round_nearest_even_nonneg m l : 0 <= m -> 0 <= round_nearest_even m l.
Proof.
  intros H. unfold round_nearest_even.
  destruct l as [|[| |]]; [| destruct (Z.even m) | |]; lia.
Qed.

Lemma binary_round_aux_nonneg m e l :
  0 <= m ->
  PyFloat.nonneg (binary_round_aux PyFloat.prec PyFloat.emax false m e l).
Proof.
  intros H. unfold binary_round_aux.
  pose proof (shr_fexp_nonneg m e l H) as H1.
  destruct (shr_fexp PyFloat.prec PyFloat.emax m e l) as [mrs' e'].
  simpl in H1.
  pose proof (shr_fexp_nonneg _ e' loc_Exact
                (round_nearest_even_nonneg _ (loc_of_shr_record mrs') H1))
    as H2.
  destruct (shr_fexp PyFloat.prec PyFloat.emax _ e' loc_Exact) as [mrs'' e''].
  simpl in H2.
  destruct (shr_m mrs'') as [|p|p]; simpl; [trivial | | lia].
  destruct (e'' <=? _); reflexivity.
Qed.

Lemma of_ratio_nonneg m d :
  0 <= m -> 0 < d -> PyFloat.nonneg (PyFloat.of_ratio false m d).
Proof.
  intros Hm Hd. unfold PyFloat.of_ratio.
  destruct m as [|p|p]; [exact I | | lia].
  unfold SFdiv_core_binary.
  set (s := _ - _ - _).
  set (m' := match s with Z0 => _ | Zpos _ => _ | Zneg _ => _ end).
  assert (Hm' : 0 <= m').
  { subst m'. destruct s; [lia | apply Z.shiftl_nonneg; lia | lia]. }
  pose proof (Z.div_pos m' d Hm' Hd) as Hq. unfold Z.div in Hq.
  destruct (Z.div_eucl m' d) as [q r]. simpl in Hq.
  apply binary_round_aux_nonneg. exact Hq.
Qed.


End FloatFacts.

(** ** The handler on one message *)

Module Handler.

Import Trace TraceFacts Body BodyFacts.


Lemma time_since_last_counted st t :
  time_since_last (counted st) t = time_since_last st t.
Proof. reflexivity. Qed.







End Handler.

(** ** Undecodable payloads (claim C1) *)




(** ** New and duplicate data (claim C3) *)




(** A timestamp that is JSON null is [None], the initial value of
    [last_data_timestamp]: the first message is then not new. *)
Lemma null_timestamp_first_message :
  is_new_data initial VNone = false
  /\ Trace.classification
       (snd (on_message repr_unused Json.loads initial 0
               (Json.text "{'timestamp': null}")))
     = [EvDuplicate].
Proof. split; vm_compute; reflexivity. Qed.

(** ** Normalization of a unit record (claim C8) *)



(** ** Payloads without a timestamp (claim C10) *)




(** * Further properties of the monitor *)

(** ** The counter and the tracking variables over a run *)

Module RunFacts.

Import Trace TraceFacts Body BodyFacts More.

Lemma on_message_count py_repr json_loads st received_at msg_payload :
  message_count
    (fst (on_message py_repr json_loads st received_at msg_payload))
  = (message_count st + 1)%Z.
Proof.
  unfold on_message. destruct (json_loads msg_payload); try reflexivity.
  destruct (process py_repr _ received_at _ payload) as [out [v|e]];
    reflexivity.
Qed.

Lemma run_cons py_repr json_loads st received_at msg_payload rest :
  run py_repr json_loads st ((received_at, msg_payload) :: rest)
  = (fst (run py_repr json_loads
            (fst (on_message py_repr json_loads st received_at msg_payload))
            rest),
     snd (on_message py_repr json_loads st received_at msg_payload)
     :: snd (run py_repr json_loads
               (fst (on_message py_repr json_loads st received_at
                       msg_payload)) rest)).
Proof.
  simpl.
  destruct (on_message py_repr json_loads st received_at msg_payload)
    as [s o]. simpl. destruct (run py_repr json_loads s rest). reflexivity.
Qed.

Lemma run_count py_repr json_loads msgs : forall st,
  message_count (fst (run py_repr json_loads st msgs))
  = (message_count st + Z.of_nat (List.length msgs))%Z.
Proof.
  induction msgs as [|[t b] rest IH]; intros st.
  - simpl. lia.
  - rewrite run_cons. cbn [fst List.length].
    rewrite IH, on_message_count. lia.
Qed.

Lemma run_length py_repr json_loads msgs : forall st,
  List.length (snd (run py_repr json_loads st msgs)) = List.length msgs.
Proof.
  induction msgs as [|[t b] rest IH]; intros st; [reflexivity|].
  rewrite run_cons. cbn [snd List.length]. rewrite IH. reflexivity.
Qed.

End RunFacts.

(** X1. The counter counts every message the handler is called with, decoded
    or not: after a run it has grown by the number of messages, and the run
    has one output per message. *)
Theorem X1_counter_counts_every_message (py_repr : value -> pystr)
    (json_loads : list Byte.byte -> loads_result) (st : tracking)
    (msgs : list (Z * list Byte.byte)) :
  message_count (fst (run py_repr json_loads st msgs))
  = (message_count st + Z.of_nat (List.length msgs))%Z
  /\ List.length (snd (run py_repr json_loads st msgs)) = List.length msgs.
Proof.
  split; [apply RunFacts.run_count | apply RunFacts.run_length].
Qed.

(** ** Failures do not touch the tracking variables *)

Module Diagnostics.

Import Trace TraceFacts Body BodyFacts More.

Lemma clean_filter out :
  clean out = true <-> List.filter is_diagnostic out = [].
Proof.
  unfold clean. induction out as [|e out IH]; simpl; [tauto|].
  destruct (is_diagnostic e); simpl; [split; discriminate | exact IH].
Qed.

Lemma clean_app a b : clean (a ++ b) = clean a && clean b.
Proof. unfold clean. apply forallb_app. Qed.

(** The lines after the raw values are no failure lines. *)
Lemma report_tail_no_diagnostic py_repr items :
  List.filter is_diagnostic
    (fst (bind (print (EvFields (List.length items) (all_fields py_repr items)))
       (fun _ =>
        bind (print (EvSupplyCandidates (supply_temp_candidates items)))
          (fun _ =>
           bind (lift (heat_num py_repr items)) (fun heat_num =>
           bind (lift (cool_num py_repr items)) (fun cool_num =>
           bind (lift (hvac_status heat_num cool_num)) (fun status =>
           bind (print status) (fun _ =>
           print_all (setpoint_gap py_repr items)))))))))
  = [].
Proof.
  rewrite !filter_print. cbn [is_diagnostic app].
  rewrite filter_lift.
  destruct (heat_num py_repr items) as [h|]; [|reflexivity].
  rewrite filter_lift.
  destruct (cool_num py_repr items) as [c|]; [|reflexivity].
  rewrite filter_lift.
  destruct (hvac_status h c) as [ev|] eqn:Hev; [|reflexivity].
  rewrite filter_print.
  assert (Hk : is_diagnostic ev = false)
    by (destruct (hvac_status_event _ _ _ Hev) as [-> | [-> | ->]];
        reflexivity).
  rewrite Hk. cbn [app print_all fst].
  destruct (setpoint_gap_events py_repr items) as [-> | (g & u & e & ->)];
    reflexivity.
Qed.

Lemma diagnostics_report py_repr v :
  List.filter is_diagnostic (fst (report_fcu py_repr v)) = [].
Proof.
  unfold report_fcu. rewrite filter_print.
  cbn [is_diagnostic app]. cbv beta.
  destruct v; try reflexivity.
  rewrite filter_print_all, report_tail_no_diagnostic, app_nil_r.
  reflexivity.
Qed.

Lemma diagnostics_unit_part py_repr top ts :
  List.filter is_diagnostic (fst (unit_part py_repr top ts)) = [].
Proof.
  unfold unit_part. rewrite filter_bind.
  destruct (lookup top status_key) as [status|].
  - rewrite filter_lift, snd_bind.
    destruct (py_len status) as [n|]; [|reflexivity].
    cbn [lift snd print fst List.filter is_diagnostic app].
    rewrite filter_print. cbn [is_diagnostic app].
    rewrite filter_bind, filter_lift, snd_bind.
    destruct (py_in fcu_key status) as [[|]|]; cbn [lift snd];
      try reflexivity.
    rewrite filter_lift, snd_bind.
    destruct (py_getitem status fcu_key) as [the_fcu|]; cbn [lift snd];
      [|reflexivity].
    rewrite diagnostics_report.
    destruct (snd (report_fcu py_repr the_fcu)); reflexivity.
  - reflexivity.
Qed.

Lemma diagnostics_process py_repr st received_at size payload :
  List.filter is_diagnostic
    (fst (process py_repr st received_at size payload)) = [].
Proof.
  destruct payload; try reflexivity.
  rewrite process_split. cbn [fst List.filter is_diagnostic].
  rewrite !filter_app, diagnostics_unit_part, app_nil_r.
  unfold timing_events, classification_events.
  destruct (time_since_last st received_at) as [seconds|];
    [destruct (PyFloat.nonzero seconds)|];
    (destruct (is_new_data st (data_timestamp_of d));
     [destruct (truthy (last_data_timestamp st))|]); reflexivity.
Qed.

(** The three ways a call of the handler ends. *)
Lemma on_message_cases py_repr json_loads st received_at msg_payload :
  let r := on_message py_repr json_loads st received_at msg_payload in
  (exists top,
      json_loads msg_payload = Loaded (VDict top)
      /\ fst r = update_tracking (counted st) received_at
                   (data_timestamp_of top)
      /\ clean (snd r) = true)
  \/ (exists pre d,
        fst r = counted st
        /\ snd r = pre ++ [d]
        /\ is_diagnostic d = true
        /\ clean pre = true).
Proof.
  intros r. subst r. unfold on_message. fold (counted st).
  destruct (json_loads msg_payload) as [payload| |].
  - pose proof (diagnostics_process py_repr (counted st) received_at
                  (List.length msg_payload) payload) as Hd.
    destruct payload as [ | | | | | |top];
      try (right; exists [], EvError; repeat split; reflexivity).
    pose proof (process_split py_repr (counted st) received_at
                  (List.length msg_payload) top) as Hs.
    destruct (process py_repr (counted st) received_at _ (VDict top))
      as [out [v|e]]; cbn [fst snd] in *.
    + left. exists top. split; [reflexivity|].
      injection Hs as _ Hv. symmetry in Hv.
      apply unit_part_result in Hv. subst v.
      split; [reflexivity | apply clean_filter, Hd].
    + right. exists out, EvError.
      repeat split. apply clean_filter, Hd.
  - right. exists [], EvParseFailed. repeat split.
  - right. exists [], EvError. repeat split.
Qed.

End Diagnostics.

(** X2. A call of the handler that prints a failure line prints it last and
    leaves [last_message_time] and [last_data_timestamp] as they were; a
    call that prints none has decoded an object and stores the arrival time
    and the data timestamp of that object. *)
Theorem X2_tracking_follows_success (py_repr : value -> pystr)
    (json_loads : list Byte.byte -> loads_result) (st : tracking)
    (received_at : Z) (msg_payload : list Byte.byte) :
  let st' := fst (on_message py_repr json_loads st received_at msg_payload) in
  let out := snd (on_message py_repr json_loads st received_at msg_payload) in
  (More.clean out = true ->
   last_message_time st' = Some received_at
   /\ exists top,
        json_loads msg_payload = Loaded (VDict top)
        /\ last_data_timestamp st' = Body.data_timestamp_of top)
  /\ (More.clean out = false ->
      last_message_time st' = last_message_time st
      /\ last_data_timestamp st' = last_data_timestamp st
      /\ exists pre d,
           out = pre ++ [d] /\ More.is_diagnostic d = true
           /\ More.clean pre = true).
Proof.
  intros st' out. subst st' out.
  destruct (Diagnostics.on_message_cases py_repr json_loads st received_at
              msg_payload) as [(top & Hl & Hst & Hc) | (pre & d & Hst & Ho & Hd & Hp)].
  - rewrite Hst, Hc. split; [|discriminate].
    intros _. split; [reflexivity|]. exists top. split; [exact Hl | reflexivity].
  - rewrite Hst, Ho. split.
    + intros Hc. rewrite Diagnostics.clean_app in Hc.
      unfold More.clean in Hc at 2. simpl in Hc. rewrite Hd in Hc.
      rewrite andb_false_r in Hc. discriminate.
    + intros _. split; [reflexivity|]. split; [reflexivity|].
      exists pre, d. repeat split; assumption.
Qed.

Lemma X2_tracking_follows_success_witness :
  let bad := Json.text "{'status': {'fCU_01_04': {'nvoHeatOut': '1.2.3'}}}" in
  let good := Json.text "{'timestamp': 'T7'}" in
  let r1 := on_message repr_unused Json.loads initial 1000000 bad in
  let r2 := on_message repr_unused Json.loads initial 1000000 good in
  More.clean (snd r1) = false
  /\ last_message_time (fst r1) = None
  /\ More.clean (snd r2) = true
  /\ last_message_time (fst r2) = Some 1000000%Z.
Proof.
  intros bad good r1 r2.
  assert (H1 : More.clean (snd r1) = false) by (vm_compute; reflexivity).
  assert (H2 : More.clean (snd r2) = true) by (vm_compute; reflexivity).
  destruct (X2_tracking_follows_success repr_unused Json.loads initial
              1000000 bad) as [_ Hb].
  destruct (X2_tracking_follows_success repr_unused Json.loads initial
              1000000 good) as [Hg _].
  split; [exact H1|]. split; [exact (proj1 (Hb H1))|].
  split; [exact H2 | exact (proj1 (Hg H2))].
Defined.


(** ** What can fail in the report of the unit *)

Module ReportFacts.

Import Trace TraceFacts More.

Lemma float_of_token_raises tok e :
  FloatLiteral.float_of_token tok = Raise e -> e = ValueError.
Proof.
  unfold FloatLiteral.float_of_token.
  destruct (FloatLiteral.scan _ tok); [discriminate | congruence].
Qed.








End ReportFacts.



(** ** The numbers that [extractNumericValue] returns *)

Module LiteralFacts.

Import FloatLiteral More.

Local Open Scope Z_scope.

Lemma step_mant a c a' : 0 <= mant a -> step a c = Some a' -> 0 <= mant a'.
Proof.
  unfold step. intros Ha.
  destruct (PyStr.decimal_value c) as [v|].
  - intros [= <-]. cbn [mant]. pose proof (N2Z.is_nonneg v).
    destruct (mant a); lia.
  - destruct (_ && _); [|discriminate]. intros [= <-]. exact Ha.
Qed.

Lemma scan_mant tok : forall a a',
  0 <= mant a -> scan a tok = Some a' -> 0 <= mant a'.
Proof.
  induction tok as [|c tok IH]; intros a a' Ha; simpl.
  - destruct (seen_digit a); [|discriminate]. intros [= <-]. exact Ha.
  - destruct (step a c) as [a1|] eqn:E; [|discriminate].
    apply IH. exact (step_mant a c a1 Ha E).
Qed.

Lemma float_of_token_nonneg tok f :
  float_of_token tok = Ok f -> PyFloat.nonneg f.
Proof.
  unfold float_of_token.
  destruct (scan start tok) as [a|] eqn:E; [|discriminate].
  intros [= <-]. apply FloatFacts.of_ratio_nonneg.
  - apply (scan_mant tok start a); [simpl; lia | exact E].
  - apply Z.pow_pos_nonneg; lia.
Qed.

End LiteralFacts.

(** X5. A number that [extractNumericValue] returns is never negative and
    never NaN: it is a zero, a positive finite float or plus infinity. For
    a falsy value ([None], an empty string, a zero) it returns [None]. *)
Theorem X5_extracted_numbers_are_not_negative (py_repr : value -> pystr)
    (v : value) :
  (forall f,
      extractNumericValue py_repr v = Ok (Some f) ->
      PyFloat.nonneg f /\ PyFloat.leb fzero f = true)
  /\ (truthy v = false -> extractNumericValue py_repr v = Ok None).
Proof.
  split.
  - intros f. unfold extractNumericValue.
    destruct (negb (truthy v)); [discriminate|].
    destruct (Regex.match_number _) as [tok|]; [|discriminate].
    destruct (FloatLiteral.float_of_token tok) as [g|] eqn:E; [|discriminate].
    intros [= <-].
    pose proof (LiteralFacts.float_of_token_nonneg tok g E) as Hn.
    split; [exact Hn | exact (FloatFacts.nonneg_leb g Hn)].
  - intros H. unfold extractNumericValue. rewrite H. reflexivity.
Qed.

Lemma X5_extracted_numbers_are_not_negative_witness :
  extractNumericValue repr_unused (VStr (PyStr.lit "7.25 kW {ok}"))
  = Ok (Some (dec 725 2))
  /\ PyFloat.leb fzero (dec 725 2) = true
  /\ extractNumericValue repr_unused (VStr []) = Ok None.
Proof.
  destruct (X5_extracted_numbers_are_not_negative repr_unused
              (VStr (PyStr.lit "7.25 kW {ok}"))) as [H _].
  destruct (X5_extracted_numbers_are_not_negative repr_unused (VStr []))
    as [_ H0].
  assert (E : extractNumericValue repr_unused (VStr (PyStr.lit "7.25 kW {ok}"))
              = Ok (Some (dec 725 2))) by (vm_compute; reflexivity).
  split; [exact E|]. split; [exact (proj2 (H _ E)) | apply H0; reflexivity].
Defined.

(** ** When the conversion raises *)

Module ScanFacts.

Import FloatLiteral More Regex.

Lemma token_char_cases c :
  token_char c = true ->
  (exists v, PyStr.decimal_value c = Some v /\ N.eqb PyStr.dot c = false)
  \/ (PyStr.decimal_value c = None /\ c = PyStr.dot).
Proof.
  unfold token_char, PyStr.is_decimal.
  destruct (PyStr.decimal_value c) as [v|] eqn:E.
  - intros _. left. exists v. split; [reflexivity|].
    destruct (N.eqb PyStr.dot c) eqn:Ed; [|reflexivity].
    apply N.eqb_eq in Ed. subst c. vm_compute in E. discriminate.
  - cbn [orb]. intros Hd. apply N.eqb_eq in Hd.
    right. split; [reflexivity | exact Hd].
Qed.

Lemma scan_fails tok :
  Forall (fun c => token_char c = true) tok ->
  forall a,
    scan a tok = None
    <-> (seen_dot a = true /\ (1 <= count_dots tok)%nat)
        \/ (2 <= count_dots tok)%nat
        \/ (seen_digit a = false /\ has_digit tok = false).
Proof.
  unfold count_dots, has_digit.
  induction 1 as [|c tok Hc _ IH]; intros a.
  - simpl. destruct (seen_digit a); split; try discriminate; intuition lia.
  - cbn [scan List.filter List.existsb]. unfold PyStr.is_decimal at 1, step.
    destruct (token_char_cases c Hc) as [(v & -> & ->) | (-> & ->)].
    + rewrite IH. cbn [seen_dot seen_digit orb List.length].
      split; intros [H | [H | H]]; try tauto; destruct H; discriminate.
    + cbn [N.eqb Pos.eqb PyStr.dot andb orb List.length].
      change (N.eqb 46 46) with true. cbn [andb].
      destruct (seen_dot a) eqn:Hd; cbn [negb].
      * split; [|reflexivity]. intros _. left. split; [reflexivity | lia].
      * rewrite IH. cbn [seen_dot seen_digit].
        split; intros [H | [H | H]]; try (destruct H; discriminate);
          try tauto; try (right; left; lia); try (destruct H; lia).
        destruct (Nat.eq_dec (List.length (List.filter (N.eqb PyStr.dot) tok)) 0)
          as [E|E]; [lia | left; split; [reflexivity | lia]].
Qed.

Lemma float_of_token_fails tok :
  Forall (fun c => token_char c = true) tok ->
  float_of_token tok = Raise ValueError
  <-> (2 <= count_dots tok)%nat \/ has_digit tok = false.
Proof.
  intros H. unfold float_of_token.
  pose proof (scan_fails tok H start) as Hs. cbn [start seen_dot seen_digit] in Hs.
  destruct (scan start tok) as [a|].
  - split; [discriminate|]. intros Hf.
    assert (Hn : @None acc = None) by reflexivity.
    destruct Hs as [_ Hs].
    assert (X : Some a = None); [|discriminate].
    apply Hs. destruct Hf as [Hf | Hf]; [right; left; exact Hf|].
    right; right. split; [reflexivity | exact Hf].
  - split; [|reflexivity]. intros _.
    destruct (proj1 Hs eq_refl) as [[Hd _] | [Hd | [_ Hd]]];
      [discriminate | left; exact Hd | right; exact Hd].
Qed.

End ScanFacts.

(** X6. On a string, [extractNumericValue] raises exactly when the leading
    run of digits and dots is not empty and either has two dots or more or
    has no digit at all; it then raises [ValueError]. *)
Theorem X6_extract_raises_on_malformed_number (py_repr : value -> pystr)
    (s : pystr) :
  (exists e, extractNumericValue py_repr (VStr s) = Raise e)
  <-> (Regex.digits_dots s <> []
       /\ ((2 <= More.count_dots (Regex.digits_dots s))%nat
           \/ More.has_digit (Regex.digits_dots s) = false)).
Proof.
  pose proof (ScanFacts.float_of_token_fails (Regex.digits_dots s)
                (RegexFacts.digits_dots_all s)) as Hf.
  unfold extractNumericValue, Regex.match_number. cbn [py_str].
  destruct (Regex.digits_dots s) as [|c tok] eqn:E.
  - destruct (negb (truthy (VStr s))); split;
      try (intros [e H]; discriminate); intros [H _]; contradiction.
  - assert (Ht : truthy (VStr s) = true).
    { destruct s; [discriminate | reflexivity]. }
    rewrite Ht. cbn [negb].
    destruct (FloatLiteral.float_of_token (c :: tok)) as [f|e] eqn:Ef.
    + split; [intros [e H]; discriminate|].
      intros [_ H]. apply Hf in H. discriminate.
    + pose proof (ReportFacts.float_of_token_raises _ _ Ef) as ->.
      split; [|intros _; exists ValueError; reflexivity].
      intros _. split; [discriminate | apply Hf; reflexivity].
Qed.

Lemma X6_extract_raises_on_malformed_number_witness :
  (exists e, extractNumericValue repr_unused
               (VStr (PyStr.lit "10.0.2 {ok}")) = Raise e)
  /\ Regex.digits_dots (PyStr.lit "... pending") = PyStr.lit "..."
  /\ (exists e, extractNumericValue repr_unused
                  (VStr (PyStr.lit "... pending")) = Raise e).
Proof.
  split; [|split; [reflexivity|]].
  - apply (X6_extract_raises_on_malformed_number repr_unused).
    split; [discriminate | left; vm_compute; lia].
  - apply (X6_extract_raises_on_malformed_number repr_unused).
    split; [discriminate | right; reflexivity].
Defined.

(** ** Decoding the text that [parse_value] builds *)

(** X7. The text that [parse_value] builds for a string decodes to the same
    parts as the string itself: the same leading token, the same status
    word (ok when the string has none), and, through [extractNumericValue],
    the same number, [None] or exception. *)
Theorem X7_parsed_text_keeps_token_status_number (py_repr : value -> pystr)
    (s : pystr) :
  (forall tok,
      Regex.match_number_or_nan s = Some tok ->
      Regex.match_number_or_nan (parse_value py_repr (VStr s)) = Some tok
      /\ Regex.search_braced (parse_value py_repr (VStr s))
         = Some match Regex.search_braced s with
                | Some word => word
                | None => PyStr.lit "ok"
                end)
  /\ extractNumericValue py_repr (VStr (parse_value py_repr (VStr s)))
     = extractNumericValue py_repr (VStr s).
Proof.
  split.
  - intros tok H. rewrite parse_value_str, H.
    pose proof (RegexFacts.match_number_or_nan_shape s tok H) as Hg.
    split; [apply match_rendered; exact Hg|].
    apply search_rendered; [exact Hg|].
    destruct (Regex.search_braced s) as [word|] eqn:Hw.
    + exact (RegexFacts.search_braced_word _ _ Hw).
    + exact ok_good_status.
  - rewrite parse_value_str.
    destruct (Regex.match_number_or_nan s) as [tok|] eqn:H; [|reflexivity].
    set (word := match Regex.search_braced s with
                 | Some w => w
                 | None => PyStr.lit "ok"
                 end).
    unfold Regex.match_number_or_nan in H.
    unfold extractNumericValue, Regex.match_number. cbn [py_str].
    pose proof (RegexFacts.digits_dots_all s) as Hall.
    destruct (Regex.digits_dots s) as [|c t] eqn:D.
    + destruct (PyStr.starts_with _ s); [|discriminate].
      injection H as <-.
      destruct (negb (truthy (VStr s))); reflexivity.
    + injection H as <-.
      assert (Hs : truthy (VStr s) = true)
        by (destruct s; [discriminate | reflexivity]).
      rewrite Hs.
      unfold rendered. change (PyStr.lit " {") with [32; 123]%N.
      cbn [app truthy negb].
      change (c :: t ++ 32%N :: 123%N :: word ++ PyStr.lit "}")
        with ((c :: t) ++ 32%N :: 123%N :: word ++ PyStr.lit "}").
      rewrite (RegexFacts.digits_dots_app (c :: t) 32%N _ Hall eq_refl).
      reflexivity.
Qed.

Lemma X7_parsed_text_keeps_token_status_number_witness :
  Regex.match_number_or_nan (PyStr.lit "18.5 C {alarm} {x}")
  = Some (PyStr.lit "18.5")
  /\ parse_value repr_unused (VStr (PyStr.lit "18.5 C {alarm} {x}"))
     = PyStr.lit "18.5 {alarm}"
  /\ Regex.search_braced
       (parse_value repr_unused (VStr (PyStr.lit "18.5 C {alarm} {x}")))
     = Some (PyStr.lit "alarm").
Proof.
  assert (H : Regex.match_number_or_nan (PyStr.lit "18.5 C {alarm} {x}")
              = Some (PyStr.lit "18.5")) by reflexivity.
  destruct (X7_parsed_text_keeps_token_status_number repr_unused
              (PyStr.lit "18.5 C {alarm} {x}")) as [Hk _].
  destruct (Hk _ H) as [_ Hs].
  split; [exact H|]. split; [reflexivity | exact Hs].
Defined.

(** ** The setpoint gap *)

Module GapFacts.

Lemma gap_of_some user_sp eff_sp gap :
  gap_of user_sp eff_sp = Some gap ->
  exists u e,
    user_sp = Some u /\ eff_sp = Some e
    /\ PyFloat.nonzero u = true /\ PyFloat.nonzero e = true
    /\ gap = PyFloat.abs (PyFloat.sub u e)
    /\ PyFloat.ltb PyFloat.tenth gap = true.
Proof.
  unfold gap_of. destruct user_sp as [u|]; [|discriminate].
  destruct eff_sp as [e|]; [|discriminate].
  destruct (PyFloat.nonzero u) eqn:Hu; [|discriminate].
  destruct (PyFloat.nonzero e) eqn:He; [|discriminate].
  destruct (PyFloat.ltb _ _) eqn:Hl; [|discriminate].
  intros [= <-]. exists u, e. repeat split; assumption.
Qed.

(** The sign given to the rounding only shows in the sign of the result. *)
Lemma abs_binary_round_aux s s' m e l :
  SFabs (binary_round_aux PyFloat.prec PyFloat.emax s m e l)
  = SFabs (binary_round_aux PyFloat.prec PyFloat.emax s' m e l).
Proof.
  unfold binary_round_aux.
  destruct (shr_fexp PyFloat.prec PyFloat.emax m e l) as [mrs' e'].
  destruct (shr_fexp PyFloat.prec PyFloat.emax _ e' loc_Exact)
    as [mrs'' e''].
  destruct (shr_m mrs'') as [|p|p]; try reflexivity.
  destruct (Z.leb e'' _); reflexivity.
Qed.

Lemma abs_binary_normalize m e :
  SFabs (binary_normalize PyFloat.prec PyFloat.emax m e false)
  = SFabs (binary_normalize PyFloat.prec PyFloat.emax (- m) e false).
Proof.
  destruct m as [|p|p]; [reflexivity| |]; simpl; unfold binary_round;
    destruct (shl_align _ _ _) as [mz ez]; apply abs_binary_round_aux.
Qed.

Lemma abs_sub_comm x y :
  PyFloat.abs (PyFloat.sub x y) = PyFloat.abs (PyFloat.sub y x).
Proof.
  unfold PyFloat.abs, PyFloat.sub.
  destruct x as [sx|sx| |sx mx ex], y as [sy|sy| |sy my ey];
    try reflexivity;
    try (destruct sx, sy; reflexivity).
  unfold SFsub. rewrite (Z.min_comm ey ex).
  rewrite abs_binary_normalize. f_equal. f_equal. lia.
Qed.

End GapFacts.

(** X8. A setpoint gap is printed at most once per unit, and only when both
    setpoints were extracted as numbers other than zero whose absolute
    difference exceeds 0.1; the number printed is that difference. *)
Theorem X8_gap_line_is_above_threshold (py_repr : value -> pystr)
    (items : list (pystr * value)) :
  (List.length (setpoint_gap py_repr items) <= 1)%nat
  /\ (forall ev, In ev (setpoint_gap py_repr items) ->
        exists gap u e,
          ev = EvSetpointGap gap u e
          /\ extractNumericValue py_repr (field items "nviSetpoint")
             = Ok (Some u)
          /\ extractNumericValue py_repr (field items "nvoEffectSetpt")
             = Ok (Some e)
          /\ PyFloat.nonzero u = true /\ PyFloat.nonzero e = true
          /\ gap = PyFloat.abs (PyFloat.sub u e)
          /\ PyFloat.ltb PyFloat.tenth gap = true).
Proof.
  unfold setpoint_gap.
  destruct (extractNumericValue py_repr (field items "nviSetpoint"))
    as [user_sp|]; [|split; [simpl; lia | intros ev []]].
  destruct (extractNumericValue py_repr (field items "nvoEffectSetpt"))
    as [eff_sp|]; [|split; [simpl; lia | intros ev []]].
  destruct (gap_of user_sp eff_sp) as [gap|] eqn:Hg;
    [|split; [simpl; lia | intros ev []]].
  destruct (GapFacts.gap_of_some _ _ _ Hg)
    as (u & e & -> & -> & Hu & He & Hgap & Hlt).
  split; [simpl; lia|].
  intros ev [<- | []]. exists gap, u, e. repeat split; assumption.
Qed.

Lemma X8_gap_line_is_above_threshold_witness :
  let items := [item "nviSetpoint" "21.0 {ok}";
                item "nvoEffectSetpt" "23.5 {ok}"] in
  setpoint_gap repr_unused items
  = [EvSetpointGap (dec 25 1) (dec 210 1) (dec 235 1)]
  /\ PyFloat.ltb PyFloat.tenth (dec 25 1) = true.
Proof.
  intros items.
  assert (E : setpoint_gap repr_unused items
              = [EvSetpointGap (dec 25 1) (dec 210 1) (dec 235 1)])
    by (vm_compute; reflexivity).
  split; [exact E|].
  destruct (X8_gap_line_is_above_threshold repr_unused items) as [_ H].
  destruct (H (EvSetpointGap (dec 25 1) (dec 210 1) (dec 235 1)))
    as (g & u & e & Hev & _ & _ & _ & _ & _ & Hlt).
  - rewrite E. left. reflexivity.
  - injection Hev as Hg _ _. subst g. exact Hlt.
Defined.

(** X9. The gap does not depend on which of the two setpoints is the user
    setpoint: the test of line 215 and the number of line 216 are the same
    with the two setpoints exchanged. *)
Theorem X9_gap_is_symmetric (user_sp eff_sp : option PyFloat.float) :
  gap_of user_sp eff_sp = gap_of eff_sp user_sp.
Proof.
  unfold gap_of. destruct user_sp as [u|], eff_sp as [e|]; try reflexivity.
  rewrite (GapFacts.abs_sub_comm u e), (andb_comm (PyFloat.nonzero u)).
  reflexivity.
Qed.

(** ** The listing of all fields *)

Module SortFacts.

Import More PyOps.

Lemma leb_total a : forall b, PyStr.leb a b = false -> PyStr.leb b a = true.
Proof.
  induction a as [|c a IH]; intros [|d b]; simpl; try discriminate;
    try reflexivity.
  destruct (N.ltb_spec c d), (N.ltb_spec d c), (N.eqb_spec c d),
    (N.eqb_spec d c); try discriminate; try reflexivity; try lia.
  apply IH.
Qed.

Lemma leb_trans a : forall b c,
  PyStr.leb a b = true -> PyStr.leb b c = true -> PyStr.leb a c = true.
Proof.
  induction a as [|x a IH]; intros [|y b] [|z c]; simpl; try discriminate;
    try reflexivity.
  destruct (N.ltb_spec x y), (N.ltb_spec y z), (N.ltb_spec x z),
    (N.eqb_spec x y), (N.eqb_spec y z), (N.eqb_spec x z);
    try discriminate; try reflexivity; try lia.
  apply IH.
Qed.

Lemma insert_sorted_perm k l : Permutation (insert_sorted k l) (k :: l).
Proof.
  induction l as [|k' l IH]; simpl; [reflexivity|].
  destruct (PyStr.leb k k'); [reflexivity|].
  rewrite IH. apply perm_swap.
Qed.

Lemma insert_sorted_hd k k' l :
  str_le k' k -> HdRel str_le k' l -> HdRel str_le k' (insert_sorted k l).
Proof.
  intros Hk Hl. destruct l as [|x l]; simpl; [constructor; exact Hk|].
  destruct (PyStr.leb k x); constructor; [exact Hk|].
  inversion Hl; assumption.
Qed.

Lemma insert_sorted_sorted k l :
  Sorted str_le l -> Sorted str_le (insert_sorted k l).
Proof.
  induction 1 as [|k' l Hs IH Hh]; simpl; [repeat constructor|].
  destruct (PyStr.leb k k') eqn:E.
  - constructor; [constructor; assumption | constructor; exact E].
  - constructor; [exact IH|].
    apply insert_sorted_hd; [exact (leb_total _ _ E) | exact Hh].
Qed.

Lemma sorted_perm l : Permutation (sorted l) l.
Proof.
  induction l as [|k l IH]; simpl; [reflexivity|].
  rewrite insert_sorted_perm. constructor. exact IH.
Qed.

Lemma sorted_sorted l : Sorted str_le (sorted l).
Proof.
  induction l as [|k l IH]; simpl; [constructor|].
  apply insert_sorted_sorted, IH.
Qed.

End SortFacts.

(** X10. The listing of all fields names every field of the unit exactly
    as often as the unit holds it, in ascending order of the names by code
    point, each with the [parse_value] text of its value; the total shown is
    the number of lines listed. *)
Theorem X10_all_fields_sorted_and_complete (py_repr : value -> pystr)
    (items : list (pystr * value)) :
  Permutation (List.map fst (all_fields py_repr items)) (List.map fst items)
  /\ StronglySorted More.str_le (List.map fst (all_fields py_repr items))
  /\ List.length (all_fields py_repr items) = List.length items
  /\ (forall name text,
        In (name, text) (all_fields py_repr items) ->
        text = parse_value py_repr (dict_get items name)
        /\ dict_has items name = true).
Proof.
  assert (Hm : List.map fst (all_fields py_repr items)
               = sorted (List.map fst items)).
  { unfold all_fields. rewrite map_map. simpl. apply map_id. }
  split; [rewrite Hm; apply SortFacts.sorted_perm|].
  split.
  - rewrite Hm. apply Sorted_StronglySorted.
    + intros a b c. apply SortFacts.leb_trans.
    + apply SortFacts.sorted_sorted.
  - split.
    + rewrite <- (length_map fst (all_fields py_repr items)), Hm.
      rewrite (Permutation_length (SortFacts.sorted_perm _)).
      apply length_map.
    + intros name text Hin. unfold all_fields in Hin.
      apply in_map_iff in Hin. destruct Hin as (k & [= <- <-] & Hk).
      split; [reflexivity|].
      apply (Permutation_in _ (SortFacts.sorted_perm _)) in Hk.
      apply in_map_iff in Hk. destruct Hk as ([k' v] & <- & Hkv).
      unfold dict_has. clear - Hkv.
      induction items as [|[k0 v0] items IH]; [destruct Hkv|].
      simpl. destruct (PyStr.eqb k0 k') eqn:E; [reflexivity|].
      destruct Hkv as [[= -> ->] | Hkv].
      * simpl in E. rewrite PyStrFacts.eqb_refl in E. discriminate.
      * apply IH, Hkv.
Qed.

Lemma X10_all_fields_sorted_and_complete_witness :
  let items := [item "nvoSpaceTemp" "21.5 {ok}"; item "nviSetpoint" "22";
                item "Zone" "north"] in
  all_fields repr_unused items
  = [(PyStr.lit "Zone", PyStr.lit "north");
     (PyStr.lit "nviSetpoint", PyStr.lit "22 {ok}");
     (PyStr.lit "nvoSpaceTemp", PyStr.lit "21.5 {ok}")]
  /\ dict_has items (PyStr.lit "Zone") = true.
Proof.
  intros items.
  assert (E : all_fields repr_unused items
              = [(PyStr.lit "Zone", PyStr.lit "north");
                 (PyStr.lit "nviSetpoint", PyStr.lit "22 {ok}");
                 (PyStr.lit "nvoSpaceTemp", PyStr.lit "21.5 {ok}")])
    by (vm_compute; reflexivity).
  split; [exact E|].
  destruct (X10_all_fields_sorted_and_complete repr_unused items)
    as (_ & _ & _ & H).
  apply (H (PyStr.lit "Zone") (PyStr.lit "north")).
  rewrite E. left. reflexivity.
Defined.

(** ** Payloads without a usable unit *)

Module StatusFacts.

Import Body BodyFacts More.


End StatusFacts.





(** ** The interval between two arrivals *)

Module IntervalFacts.

Import More.

Local Open Scope Z_scope.





End IntervalFacts.



(** ** The stored arrival time over a run *)

(** X14. After a run, the stored arrival time is the one of the last
    message that was handled without a failure line, and the stored value
    from before the run when there is no such message. *)
Theorem X14_last_arrival_is_last_clean_message (py_repr : value -> pystr)
    (json_loads : list Byte.byte -> loads_result) (st : tracking)
    (msgs : list (Z * list Byte.byte)) :
  last_message_time (fst (run py_repr json_loads st msgs))
  = More.last_clean (last_message_time st)
      (List.combine (List.map fst msgs) (snd (run py_repr json_loads st msgs))).
Proof.
  revert st. induction msgs as [|[t b] rest IH]; intros st; [reflexivity|].
  rewrite RunFacts.run_cons. cbn [fst snd List.map List.combine More.last_clean].
  rewrite IH. f_equal.
  destruct (Diagnostics.on_message_cases py_repr json_loads st t b)
    as [(top & _ & -> & ->) | (pre & d & -> & -> & Hd & Hp)].
  - reflexivity.
  - rewrite Diagnostics.clean_app.
    unfold More.clean at 2. simpl. rewrite Hd, andb_false_r. reflexivity.
Qed.

(** ** The connection callbacks and [main] *)

Module SessionFacts.

Import More.

Section WithConfig.

Variable py_repr : value -> pystr.
Variable json_loads : list Byte.byte -> loads_result.
Variable cfg : config.

Lemma deliver_cons st c rest :
  deliver py_repr json_loads cfg st (c :: rest)
  = let r :=
      match c with
      | Connack reason_code => (st, on_connect cfg reason_code)
      | Publish received_at msg_payload =>
          (fst (on_message py_repr json_loads st received_at msg_payload),
           [Handled (snd (on_message py_repr json_loads st received_at
                            msg_payload))])
      | Disconnected reason_code => (st, on_disconnect reason_code)
      end in
    (fst (deliver py_repr json_loads cfg (fst r) rest),
     snd r ++ snd (deliver py_repr json_loads cfg (fst r) rest)).
Proof.
  simpl. destruct c as [rc|t b|rc]; simpl.
  - destruct (deliver py_repr json_loads cfg st rest). reflexivity.
  - destruct (on_message py_repr json_loads st t b) as [s o]. simpl.
    destruct (deliver py_repr json_loads cfg s rest). reflexivity.
  - destruct (deliver py_repr json_loads cfg st rest). reflexivity.
Qed.

(** The connection callbacks leave the tracking variables alone. *)
Lemma deliver_state calls : forall st,
  fst (deliver py_repr json_loads cfg st calls)
  = fst (run py_repr json_loads st (publishes calls)).
Proof.
  induction calls as [|c rest IH]; intros st; [reflexivity|].
  rewrite deliver_cons. cbv zeta. cbn [fst].
  destruct c as [rc|t b|rc]; cbn [fst publishes]; rewrite IH;
    [reflexivity | | reflexivity].
  rewrite RunFacts.run_cons. reflexivity.
Qed.

Lemma on_connect_subscribes rc :
  List.filter is_subscribe (on_connect cfg rc)
  = if Z.eqb rc 0 then [Client (Subscribe (topic cfg))] else [].
Proof. unfold on_connect. destruct (Z.eqb rc 0); reflexivity. Qed.

Lemma deliver_subscribes calls : forall st,
  List.filter is_subscribe (snd (deliver py_repr json_loads cfg st calls))
  = List.repeat (Client (Subscribe (topic cfg))) (accepted calls).
Proof.
  induction calls as [|c rest IH]; intros st; [reflexivity|].
  rewrite deliver_cons. cbv zeta. cbn [snd]. rewrite filter_app, IH.
  destruct c as [rc|t b|rc]; cbn [snd accepted].
  - rewrite on_connect_subscribes. destruct (Z.eqb rc 0); reflexivity.
  - reflexivity.
  - unfold on_disconnect. destruct (negb _); reflexivity.
Qed.

Lemma deliver_no_disconnect calls : forall st,
  List.filter is_disconnect (snd (deliver py_repr json_loads cfg st calls))
  = [].
Proof.
  induction calls as [|c rest IH]; intros st; [reflexivity|].
  rewrite deliver_cons. cbv zeta. cbn [snd]. rewrite filter_app, IH.
  destruct c as [rc|t b|rc]; cbn [snd].
  - unfold on_connect. destruct (Z.eqb rc 0); reflexivity.
  - reflexivity.
  - unfold on_disconnect. destruct (negb _); reflexivity.
Qed.

Lemma deliver_no_summary calls : forall st,
  List.filter is_summary (snd (deliver py_repr json_loads cfg st calls))
  = [].
Proof.
  induction calls as [|c rest IH]; intros st; [reflexivity|].
  rewrite deliver_cons. cbv zeta. cbn [snd]. rewrite filter_app, IH.
  destruct c as [rc|t b|rc]; cbn [snd].
  - unfold on_connect. destruct (Z.eqb rc 0); reflexivity.
  - reflexivity.
  - unfold on_disconnect. destruct (negb _); reflexivity.
Qed.

(** The lines of the calls of the handler, in order. *)
Lemma deliver_handled calls : forall st,
  List.filter (fun s => match s with Handled _ => true | _ => false end)
    (snd (deliver py_repr json_loads cfg st calls))
  = List.map Handled (snd (run py_repr json_loads st (publishes calls))).
Proof.
  induction calls as [|c rest IH]; intros st; [reflexivity|].
  rewrite deliver_cons. cbv zeta. cbn [snd]. rewrite filter_app, IH.
  destruct c as [rc|t b|rc]; cbn [snd fst publishes].
  - unfold on_connect. destruct (Z.eqb rc 0); reflexivity.
  - rewrite RunFacts.run_cons. reflexivity.
  - unfold on_disconnect. destruct (negb _); reflexivity.
Qed.

End WithConfig.

End SessionFacts.

(** X15. The connection callbacks neither read nor write the tracking
    variables: whatever acknowledgements and disconnections come between
    the messages, the handler is in the state, and prints the lines, of a
    run over the messages alone; so a reconnection resets neither the
    counter nor the detection of duplicates. *)
Theorem X15_reconnection_keeps_tracking (py_repr : value -> pystr)
    (json_loads : list Byte.byte -> loads_result) (cfg : config)
    (st : tracking) (calls : list callback) :
  fst (deliver py_repr json_loads cfg st calls)
  = fst (run py_repr json_loads st (More.publishes calls))
  /\ List.filter (fun s => match s with Handled _ => true | _ => false end)
       (snd (deliver py_repr json_loads cfg st calls))
     = List.map Handled
         (snd (run py_repr json_loads st (More.publishes calls))).
Proof.
  split.
  - apply SessionFacts.deliver_state.
  - apply SessionFacts.deliver_handled.
Qed.

(** X16. [main] subscribes once for every acknowledgement with reason code
    0 that the client delivers, always to the configured topic, and never
    when the connection is refused or [connect] raises. *)
Theorem X16_subscribes_on_accepted_connection (py_repr : value -> pystr)
    (json_loads : list Byte.byte -> loads_result) (cfg : config)
    (st : tracking) (connect_raises loop_ends : option interruption)
    (calls : list callback) :
  List.filter More.is_subscribe
    (snd (main py_repr json_loads cfg st connect_raises calls loop_ends))
  = match connect_raises with
    | Some _ => []
    | None =>
        List.repeat (Client (Subscribe (topic cfg))) (More.accepted calls)
    end.
Proof.
  unfold main. destruct connect_raises as [e|].
  - destruct e; reflexivity.
  - pose proof (SessionFacts.deliver_subscribes py_repr json_loads cfg calls
                  st) as H.
    destruct (deliver py_repr json_loads cfg st calls) as [st1 out].
    cbn [snd] in *. rewrite !filter_app. cbn [List.filter More.is_subscribe app].
    rewrite H. destruct loop_ends as [[|]|]; cbn; rewrite ?app_nil_r;
      reflexivity.
Qed.

(** X17. When Ctrl+C stops the monitor, the last things it does are the
    line that it stopped, the summary and the disconnection, and the
    summary shows the counter from before plus the number of messages the
    client delivered, decoded or not; on any other exception, or when the
    loop returns, it prints no summary and does not disconnect. *)
Theorem X17_summary_counts_delivered_messages (py_repr : value -> pystr)
    (json_loads : list Byte.byte -> loads_result) (cfg : config)
    (st : tracking) (calls : list callback) (loop_ends : option interruption) :
  let r := main py_repr json_loads cfg st None calls loop_ends in
  let total :=
    (message_count st + Z.of_nat (List.length (More.publishes calls)))%Z in
  message_count (fst r) = total
  /\ (loop_ends = Some KeyboardInterrupt ->
      exists before,
        snd r = before ++ [Console LnStopped; Console (LnSummary total);
                           Client Disconnect]
        /\ List.filter More.is_disconnect before = []
        /\ List.filter More.is_summary before = [])
  /\ (loop_ends <> Some KeyboardInterrupt ->
      List.filter More.is_disconnect (snd r) = []
      /\ List.filter More.is_summary (snd r) = []).
Proof.
  intros r total. subst r total. unfold main.
  pose proof (SessionFacts.deliver_state py_repr json_loads cfg calls st)
    as Hs.
  pose proof (SessionFacts.deliver_no_disconnect py_repr json_loads cfg calls
                st) as Hd.
  pose proof (SessionFacts.deliver_no_summary py_repr json_loads cfg calls
                st) as Hm.
  pose proof (RunFacts.run_count py_repr json_loads (More.publishes calls)
                st) as Hc.
  rewrite <- Hs in Hc.
  destruct (deliver py_repr json_loads cfg st calls) as [st1 out].
  cbn [fst snd] in *.
  split; [exact Hc|]. split.
  - intros ->. rewrite Hc. eexists. split; [|split].
    + rewrite app_assoc. reflexivity.
    + rewrite filter_app. cbn [List.filter More.is_disconnect app].
      exact Hd.
    + rewrite filter_app. cbn [List.filter More.is_summary app].
      exact Hm.
  - intros Hne.
    destruct loop_ends as [[|]|]; [contradiction Hne; reflexivity | |];
      rewrite !filter_app; cbn [List.filter More.is_disconnect
                                  More.is_summary app];
      rewrite Hd, Hm; split; reflexivity.
Qed.

Lemma X17_summary_counts_delivered_messages_witness :
  let cfg := {| host := PyStr.lit "broker.example"; port := 8883;
                username := PyStr.lit "u"; password := PyStr.lit "p";
                topic := PyStr.lit "dt/fcu/measuredvalue" |} in
  let calls := [Connack 0; Publish 1000000 (Json.text "{}");
                Disconnected 7; Connack 0;
                Publish 2000000 (Json.text "not json")] in
  let r := main repr_unused Json.loads cfg initial None calls
             (Some KeyboardInterrupt) in
  message_count (fst r) = 2%Z
  /\ exists before,
       snd r = before ++ [Console LnStopped; Console (LnSummary 2);
                          Client Disconnect].
Proof.
  intros cfg calls r.
  destruct (X17_summary_counts_delivered_messages repr_unused Json.loads cfg
              initial calls (Some KeyboardInterrupt)) as (Hc & Hs & _).
  split; [exact Hc|].
  destruct (Hs eq_refl) as (before & Hb & _). exists before. exact Hb.
Defined.

(** ** What the patterns find *)

Module PatternFacts.

Import Regex RegexFacts.

Lemma digits_dots_maximal s :
  exists rest,
    s = digits_dots s ++ rest
    /\ match rest with
       | c :: _ => token_char c = false
       | [] => True
       end.
Proof.
  induction s as [|c s (rest & Hs & Hr)]; simpl.
  - exists []. split; [reflexivity | exact I].
  - fold (token_char c). destruct (token_char c) eqn:E.
    + exists rest. split; [simpl; congruence | exact Hr].
    + exists (c :: s). split; [reflexivity | exact E].
Qed.

Lemma search_braced_sound s : forall word,
  search_braced s = Some word ->
  exists pre post,
    s = pre ++ PyStr.lbrace :: word ++ PyStr.rbrace :: post.
Proof.
  induction s as [|c s IH]; intros word; simpl; [discriminate|].
  destruct (N.eqb_spec c PyStr.lbrace) as [->|Hc].
  - pose proof (until_rbrace_spec s) as Hs.
    destruct (until_rbrace s) as [[|d run] [|e rest]];
      try (intros H; destruct (IH _ H) as (pre & post & ->);
           exists (PyStr.lbrace :: pre), post; reflexivity).
    destruct Hs as (-> & _ & ->).
    intros [= <-]. exists [], rest. reflexivity.
  - intros H. destruct (IH _ H) as (pre & post & ->).
    exists (c :: pre), post. reflexivity.
Qed.

Lemma search_braced_complete pre : forall word post,
  word <> [] ->
  Forall (fun c => c <> PyStr.rbrace) word ->
  search_braced (pre ++ PyStr.lbrace :: word ++ PyStr.rbrace :: post)
  <> None.
Proof.
  induction pre as [|c pre IH]; intros word post Hne Hw; simpl.
  - rewrite (until_rbrace_app word post Hw).
    destruct word; [contradiction | discriminate].
  - destruct (N.eqb c PyStr.lbrace); [|apply IH; assumption].
    destruct (until_rbrace _) as [[|d run] [|e rest]];
      try (apply IH; assumption).
    discriminate.
Qed.

End PatternFacts.

(** X18. The leading token of both number patterns is the longest run of
    decimal digits and dots at the start of the string: the string is that
    run followed by a rest that starts with neither a digit nor a dot; with
    an empty run the first pattern still finds [nan] at the start, the
    second finds nothing. *)
Theorem X18_number_token_is_the_longest_run (s : pystr) :
  (exists rest,
      s = Regex.digits_dots s ++ rest
      /\ Forall (fun c => Regex.token_char c = true) (Regex.digits_dots s)
      /\ match rest with
         | c :: _ => Regex.token_char c = false
         | [] => True
         end)
  /\ (Regex.digits_dots s <> [] ->
      Regex.match_number s = Some (Regex.digits_dots s)
      /\ Regex.match_number_or_nan s = Some (Regex.digits_dots s))
  /\ (Regex.digits_dots s = [] ->
      Regex.match_number s = None
      /\ Regex.match_number_or_nan s
         = if PyStr.starts_with (PyStr.lit "nan") s
           then Some (PyStr.lit "nan") else None).
Proof.
  split; [|split].
  - destruct (PatternFacts.digits_dots_maximal s) as (rest & Hs & Hr).
    exists rest. split; [exact Hs|].
    split; [apply RegexFacts.digits_dots_all | exact Hr].
  - unfold Regex.match_number, Regex.match_number_or_nan.
    destruct (Regex.digits_dots s); [intros H; contradiction|].
    intros _. split; reflexivity.
  - unfold Regex.match_number, Regex.match_number_or_nan.
    intros ->. split; reflexivity.
Qed.

Lemma X18_number_token_is_the_longest_run_witness :
  Regex.digits_dots (PyStr.lit "19.75.1kPa") = PyStr.lit "19.75.1"
  /\ Regex.match_number (PyStr.lit "19.75.1kPa")
     = Some (PyStr.lit "19.75.1")
  /\ Regex.match_number_or_nan (PyStr.lit "nano") = Some (PyStr.lit "nan").
Proof.
  destruct (X18_number_token_is_the_longest_run (PyStr.lit "19.75.1kPa"))
    as (_ & H1 & _).
  destruct (X18_number_token_is_the_longest_run (PyStr.lit "nano"))
    as (_ & _ & H2).
  split; [reflexivity|].
  split; [apply H1; discriminate | apply (H2 eq_refl)].
Defined.

(** X19. The status word that the brace pattern finds is really in the
    string between an opening and a closing brace, is not empty and holds no
    closing brace; and the pattern finds a word whenever the string holds
    such a braced word anywhere. *)
Theorem X19_status_word_is_a_braced_word (s : pystr) :
  (forall word,
      Regex.search_braced s = Some word ->
      word <> []
      /\ Forall (fun c => c <> PyStr.rbrace) word
      /\ exists pre post,
           s = pre ++ PyStr.lbrace :: word ++ PyStr.rbrace :: post)
  /\ (forall pre word post,
        s = pre ++ PyStr.lbrace :: word ++ PyStr.rbrace :: post ->
        word <> [] ->
        Forall (fun c => c <> PyStr.rbrace) word ->
        exists found, Regex.search_braced s = Some found).
Proof.
  split.
  - intros word H.
    destruct (RegexFacts.search_braced_word s word H) as [Hne Hw].
    split; [exact Hne|]. split; [exact Hw|].
    exact (PatternFacts.search_braced_sound s word H).
  - intros pre word post -> Hne Hw.
    pose proof (PatternFacts.search_braced_complete pre word post Hne Hw)
      as Hc.
    destruct (Regex.search_braced _) as [found|]; [|contradiction].
    exists found. reflexivity.
Qed.

Lemma X19_status_word_is_a_braced_word_witness :
  Regex.search_braced (PyStr.lit "40 % {} {stale} {ok}")
  = Some (PyStr.lit "stale")
  /\ exists found,
       Regex.search_braced (PyStr.lit "40 % {} {stale} {ok}") = Some found.
Proof.
  destruct (X19_status_word_is_a_braced_word
              (PyStr.lit "40 % {} {stale} {ok}")) as [_ H].
  split; [reflexivity|].
  apply (H (PyStr.lit "40 % {} {stale} ") (PyStr.lit "ok") []);
    [reflexivity | discriminate | repeat constructor; discriminate].
Defined.

(** ** The candidates for the supply temperature *)

Module SupplyFacts.

Lemma starts_with_app_l p q : forall s,
  PyStr.starts_with (p ++ q) s = true -> PyStr.starts_with p s = true.
Proof.
  induction p as [|c p IH]; intros s; simpl; [reflexivity|].
  destruct s as [|d s]; [discriminate|].
  destruct (N.eqb c d); simpl; [apply IH | discriminate].
Qed.

Lemma contains_app_l p q s :
  PyStr.contains (p ++ q) s = true -> PyStr.contains p s = true.
Proof.
  induction s as [|d s IH]; simpl.
  - rewrite orb_false_r. intros H. rewrite (starts_with_app_l p q [] H).
    reflexivity.
  - intros H. apply orb_true_iff in H. destruct H as [H | H].
    + rewrite (starts_with_app_l p q _ H). reflexivity.
    + rewrite (IH H). apply orb_true_r.
Qed.

End SupplyFacts.

(** X20. The candidates for the supply temperature are the field names, in
    the order of the unit record, whose lower-cased form contains [supply]
    or [sat]; the third test of line 185, for [supplyair], never adds a
    name. *)
Theorem X20_supply_candidates (items : list (pystr * value)) :
  supply_temp_candidates items
  = List.filter
      (fun k =>
         PyStr.contains (PyStr.lit "supply") (PyStr.lower k)
         || PyStr.contains (PyStr.lit "sat") (PyStr.lower k))
      (List.map fst items).
Proof.
  unfold supply_temp_candidates. apply filter_ext. intros k.
  destruct (PyStr.contains (PyStr.lit "supplyair") (PyStr.lower k)) eqn:E;
    [|apply orb_false_r].
  change (PyStr.lit "supplyair")
    with (PyStr.lit "supply" ++ PyStr.lit "air") in E.
  rewrite (SupplyFacts.contains_app_l _ _ _ E). reflexivity.
Qed.
